(** * Stochastic policy evaluation: [get_action] and [get_actions]

    A shallow embedding of [garage/torch/policies/stochastic_policy.py]
    (class [StochasticPolicy]) and the properties of its two entry points.

    The Python values the two methods inspect with [isinstance], index
    with [[0]] and hand to numpy / torch are modelled by the inductive
    type [pyval]; numpy arrays and torch tensors carry their shape and
    their elements in row-major order.  The interpreter state the methods
    depend on (torch's grad mode, garage's global device, the random
    generator the model and the distribution draw from) is the record
    [world]; code that can raise and touch that state lives in the monad
    [M], where an exception keeps the state reached when it was raised. *)

From Stdlib Require Import String ZArith Bool Arith Lia List.
Import ListNotations.

(** ** Data model *)

(** One element of an array or tensor, as its bit pattern. *)
Definition scalar := Z.

Inductive device : Type :=
| CPU
| CUDA (index : nat).

Definition device_eqb (d1 d2 : device) : bool :=
  match d1, d2 with
  | CPU, CPU => true
  | CUDA i, CUDA j => Nat.eqb i j
  | _, _ => false
  end.

(** [np.ndarray]: shape and row-major elements. *)
Record ndarray : Type := mk_ndarray {
  nd_shape : list nat;
  nd_data : list scalar
}.

(** [torch.Tensor]: shape, row-major elements, the device that holds it
    and whether it is attached to a differentiation graph. *)
Record tensor : Type := mk_tensor {
  t_shape : list nat;
  t_data : list scalar;
  t_device : device;
  t_requires_grad : bool
}.

(** The Python values an observation or a batch of observations can be:
    a Python number, a numpy scalar (what indexing a one-dimensional
    ndarray yields; it is not an [np.ndarray]), a plain [list], an
    [np.ndarray] or a [torch.Tensor]. *)
#[warnings="-register-all"]
Inductive pyval : Type :=
| PFloat (x : scalar)
| PNpScalar (x : scalar)
| PList (items : list pyval)
| PArr (a : ndarray)
| PTensor (t : tensor).

Inductive exn : Type :=
| IndexError
| TypeError
| ValueError
| RuntimeError
| ModelError (msg : string).

Inductive result (A : Type) : Type :=
| Ok (a : A)
| Err (e : exn).

Arguments Ok {A} a.
Arguments Err {A} e.

Definition rbind {A B} (r : result A) (k : A -> result B) : result B :=
  match r with
  | Ok a => k a
  | Err e => Err e
  end.

Definition rmap {A B} (f : A -> B) (r : result A) : result B :=
  rbind r (fun a => Ok (f a)).

Declare Scope result_scope.
Delimit Scope result_scope with result.
Notation "x <~ c ;; k" := (rbind c (fun x => k))
  (at level 61, c at next level, right associativity) : result_scope.
Local Open Scope result_scope.

Fixpoint mapM {A B} (f : A -> result B) (l : list A) : result (list B) :=
  match l with
  | [] => Ok []
  | x :: rest =>
      y <~ f x ;;
      ys <~ mapM f rest ;;
      Ok (y :: ys)
  end.

(** A Python [dict] with string keys, in insertion order: iteration
    (and so which exception a comprehension raises first) follows it. *)
Definition dict (V : Type) : Type := list (string * V).

Definition keys {V} (d : dict V) : list string := map fst d.

Definition values {V} (d : dict V) : list V := map snd d.

(** [{k: f(v) for k, v in d.items()}] *)
Fixpoint dict_comprehension {V W} (f : V -> result W) (d : dict V)
  : result (dict W) :=
  match d with
  | [] => Ok []
  | (k, v) :: rest =>
      w <~ f v ;;
      rest' <~ dict_comprehension f rest ;;
      Ok ((k, w) :: rest')
  end.

(** ** Interpreter state and the monad of the two methods *)

Record world : Type := mk_world {
  grad_enabled : bool;
  global_device : device;
  rng : Z
}.

Definition set_grad_enabled (b : bool) (w : world) : world :=
  mk_world b (global_device w) (rng w).

Definition M (A : Type) : Type := world -> result A * world.

Definition ret {A} (a : A) : M A := fun w => (Ok a, w).

Definition bind {A B} (c : M A) (k : A -> M B) : M B :=
  fun w =>
    match c w with
    | (Ok a, w') => k a w'
    | (Err e, w') => (Err e, w')
    end.

Definition lift {A} (r : result A) : M A := fun w => (r, w).

Definition is_grad_enabled : M bool := fun w => (Ok (grad_enabled w), w).

Definition get_global_device : M device :=
  fun w => (Ok (global_device w), w).

Declare Scope m_scope.
Delimit Scope m_scope with M.
Notation "x <- c ;; k" := (bind c (fun x => k))
  (at level 61, c at next level, right associativity) : m_scope.
Notation "' p <- c ;; k" := (bind c (fun x => let 'p := x in k))
  (at level 61, p pattern, c at next level, right associativity) : m_scope.

(** [with torch.no_grad(): body].  [__enter__] records the current grad
    mode and disables it; [__exit__] runs on every path out of the body,
    normal or exceptional, and puts the recorded mode back. *)
Definition with_no_grad {A} (body : M A) : M A :=
  fun w =>
    let prev := grad_enabled w in
    let (r, w') := body (set_grad_enabled false w) in
    (r, set_grad_enabled prev w').

(** ** numpy and torch operations used by the methods *)

Definition numel (shape : list nat) : nat := fold_right Nat.mul 1 shape.

Fixpoint shape_eqb (s1 s2 : list nat) : bool :=
  match s1, s2 with
  | [], [] => true
  | n :: r1, m :: r2 => Nat.eqb n m && shape_eqb r1 r2
  | _, _ => false
  end.

Definition isinstance_ndarray (v : pyval) : bool :=
  match v with PArr _ => true | _ => false end.

Definition isinstance_tensor (v : pyval) : bool :=
  match v with PTensor _ => true | _ => false end.

Definition isinstance_list (v : pyval) : bool :=
  match v with PList _ => true | _ => false end.

(** [len(v.shape)] for an ndarray or a tensor. *)
Definition shape_len (v : pyval) : nat :=
  match v with
  | PArr a => length (nd_shape a)
  | PTensor t => length (t_shape t)
  | _ => 0
  end.

(** [a[0]] on an ndarray: a numpy scalar when [a] is one-dimensional, the
    first sub-array otherwise; [IndexError] on a zero-dimensional or empty
    array. *)
Definition nd_getitem0 (a : ndarray) : result pyval :=
  match nd_shape a with
  | [] => Err IndexError
  | 0 :: _ => Err IndexError
  | S _ :: [] => Ok (PNpScalar (nth 0 (nd_data a) 0%Z))
  | S _ :: s => Ok (PArr (mk_ndarray s (firstn (numel s) (nd_data a))))
  end.

(** [t[0]] on a tensor: always a tensor (zero-dimensional when [t] is
    one-dimensional).  [g] is the grad mode in force. *)
Definition tensor_getitem0 (g : bool) (t : tensor) : result pyval :=
  match t_shape t with
  | [] => Err IndexError
  | 0 :: _ => Err IndexError
  | S _ :: s =>
      Ok (PTensor (mk_tensor s (firstn (numel s) (t_data t)) (t_device t)
                     (t_requires_grad t && g)))
  end.

(** [v[0]] *)
Definition getitem0 (g : bool) (v : pyval) : result pyval :=
  match v with
  | PFloat _ => Err TypeError
  | PNpScalar _ => Err IndexError
  | PList [] => Err IndexError
  | PList (x :: _) => Ok x
  | PArr a => nd_getitem0 a
  | PTensor t => tensor_getitem0 g t
  end.

(** [t.detach()] *)
Definition tensor_detach (t : tensor) : tensor :=
  mk_tensor (t_shape t) (t_data t) (t_device t) false.

(** [t.cpu()]: [t] itself when it is already on the host, a host copy
    otherwise (a new tensor, attached to the graph only in grad mode). *)
Definition tensor_cpu (g : bool) (t : tensor) : tensor :=
  match t_device t with
  | CPU => t
  | CUDA _ => mk_tensor (t_shape t) (t_data t) CPU (t_requires_grad t && g)
  end.

(** [t.numpy()]: refused for a tensor that requires grad and for a tensor
    that is not on the host. *)
Definition tensor_numpy (t : tensor) : result ndarray :=
  if t_requires_grad t then Err RuntimeError
  else match t_device t with
       | CPU => Ok (mk_ndarray (t_shape t) (t_data t))
       | CUDA _ => Err TypeError
       end.

(** [t.unsqueeze(0)] *)
Definition tensor_unsqueeze0 (g : bool) (t : tensor) : tensor :=
  mk_tensor (1 :: t_shape t) (t_data t) (t_device t) (t_requires_grad t && g).

(** [torch.flatten(t)]: [t] itself when already one-dimensional. *)
Definition torch_flatten (g : bool) (t : tensor) : tensor :=
  match t_shape t with
  | [_] => t
  | s => mk_tensor [numel s] (t_data t) (t_device t) (t_requires_grad t && g)
  end.

(** [torch.flatten(t, start_dim=1)] *)
Definition torch_flatten_start1 (g : bool) (t : tensor) : result tensor :=
  match t_shape t with
  | [] => Err IndexError
  | [_] => Err IndexError
  | [_; _] => Ok t
  | n :: s =>
      Ok (mk_tensor [n; numel s] (t_data t) (t_device t)
            (t_requires_grad t && g))
  end.

(** Arrays of one shape put behind a new leading axis. *)
Definition stack_arrays (arrays : list ndarray) : result ndarray :=
  match arrays with
  | [] => Ok (mk_ndarray [0] [])
  | a :: rest =>
      if forallb (fun b => shape_eqb (nd_shape a) (nd_shape b)) rest
      then Ok (mk_ndarray (length arrays :: nd_shape a)
                 (concat (map nd_data arrays)))
      else Err ValueError
  end.

(** [np.asarray(v)] *)
Fixpoint asarray (v : pyval) : result ndarray :=
  match v with
  | PFloat x => Ok (mk_ndarray [] [x])
  | PNpScalar x => Ok (mk_ndarray [] [x])
  | PArr a => Ok a
  | PTensor t => tensor_numpy t
  | PList items =>
      let fix each (l : list pyval) : result (list ndarray) :=
        match l with
        | [] => Ok []
        | x :: rest =>
            a <~ asarray x ;;
            others <~ each rest ;;
            Ok (a :: others)
        end in
      arrays <~ each items ;;
      stack_arrays arrays
  end.

(** [np.stack(items)] *)
Definition np_stack (items : list pyval) : result ndarray :=
  arrays <~ mapM asarray items ;;
  match arrays with
  | [] => Err ValueError
  | _ => stack_arrays arrays
  end.

Definition as_tensor_item (v : pyval) : result tensor :=
  match v with
  | PTensor t => Ok t
  | _ => Err TypeError
  end.

(** [torch.stack(items)] *)
Definition torch_stack (g : bool) (items : list pyval) : result tensor :=
  ts <~ mapM as_tensor_item items ;;
  match ts with
  | [] => Err RuntimeError
  | t :: rest =>
      if forallb (fun u => shape_eqb (t_shape t) (t_shape u)
                           && device_eqb (t_device t) (t_device u)) rest
      then Ok (mk_tensor (length ts :: t_shape t) (concat (map t_data ts))
                 (t_device t) (existsb t_requires_grad ts && g))
      else Err RuntimeError
  end.

(** Modelled from the spec: [as_torch] is imported from [garage.torch] and
    is not under src/.  Section 4.2, step 1: "Convert the normalized batch
    to the tensor representation required by the model's compute backend":
    the same shape and elements, as a tensor on the global device that no
    differentiation graph is attached to. *)
Definition as_torch (dev : device) (v : pyval) : result tensor :=
  match v with
  | PTensor t =>
      Ok (mk_tensor (t_shape t) (t_data t) dev (t_requires_grad t))
  | _ =>
      a <~ asarray v ;;
      Ok (mk_tensor (nd_shape a) (nd_data a) dev false)
  end.

(** ** Collaborators *)

(** Modelled from the spec: [PolicyMode] and [PolicyInput] are declared in
    [garage.torch], not under src/.  Section 3: a PolicyInput pairs an
    execution mode, "distinguishing, at minimum, rollout/inference from
    other modes the model may support", with a normalized batch. *)
Inductive PolicyMode : Type :=
| ROLLOUT
| OTHER_MODE.

Record PolicyInput : Type := mk_PolicyInput {
  mode : PolicyMode;
  observations : tensor
}.

(** The distribution object [forward] returns: only [sample()] is used. *)
Record Distribution : Type := mk_Distribution {
  sample : M tensor
}.

(** [self._env_spec.observation_space]: the two flattening transforms. *)
Record Space : Type := mk_Space {
  flatten : pyval -> result ndarray;
  flatten_n : pyval -> result ndarray
}.

(** A [StochasticPolicy]: the abstract method [forward] and the
    observation space of its environment. *)
Record StochasticPolicy : Type := mk_StochasticPolicy {
  observation_space : Space;
  forward : PolicyInput -> M (Distribution * dict tensor)
}.

(** ** The two methods *)

Definition py_torch_flatten (g : bool) (v : pyval) : result pyval :=
  match v with
  | PTensor t => Ok (PTensor (torch_flatten g t))
  | _ => Err TypeError
  end.

Definition py_torch_flatten_start1 (g : bool) (v : pyval) : result pyval :=
  match v with
  | PTensor t => rmap PTensor (torch_flatten_start1 g t)
  | _ => Err TypeError
  end.

(** [get_action], lines 30-38: the observation brought to flat form. *)
Definition normalize_observation (space : Space) (g : bool)
    (observation : pyval) : result pyval :=
  if negb (isinstance_ndarray observation)
     && negb (isinstance_tensor observation)
  then rmap PArr (flatten space observation)
  else if isinstance_ndarray observation && (1 <? shape_len observation)
  then rmap PArr (flatten space observation)
  else if isinstance_tensor observation && (1 <? shape_len observation)
  then py_torch_flatten g observation
  else Ok observation.

(** [get_actions], lines 62-65. *)
Definition flatten_raw_batch (space : Space) (g : bool)
    (observations : pyval) : result pyval :=
  first <~ getitem0 g observations ;;
  if negb (isinstance_ndarray first) && negb (isinstance_tensor first)
  then rmap PArr (flatten_n space observations)
  else Ok observations.

(** [get_actions], lines 69-73. *)
Definition stack_list_batch (g : bool) (observations : pyval)
  : result pyval :=
  match observations with
  | PList items =>
      first <~ getitem0 g observations ;;
      if isinstance_ndarray first then rmap PArr (np_stack items)
      else if isinstance_tensor first then rmap PTensor (torch_stack g items)
      else Ok observations
  | _ => Ok observations
  end.

(** [get_actions], lines 75-81. *)
Definition flatten_ranked_batch (space : Space) (g : bool)
    (observations : pyval) : result pyval :=
  first <~ getitem0 g observations ;;
  if isinstance_ndarray first && (1 <? shape_len first)
  then rmap PArr (flatten_n space observations)
  else if isinstance_tensor first && (1 <? shape_len first)
  then py_torch_flatten_start1 g observations
  else Ok observations.

(** [get_actions], lines 62-81: the batch brought to canonical form. *)
Definition normalize_observations (space : Space) (g : bool)
    (observations : pyval) : result pyval :=
  observations <~ flatten_raw_batch space g observations ;;
  observations <~ stack_list_batch g observations ;;
  flatten_ranked_batch space g observations.

(** Lines 83-84 and 40-41:
    [if not isinstance(x, torch.Tensor): x = as_torch(x)]. *)
Definition ensure_tensor (dev : device) (v : pyval) : result tensor :=
  match v with
  | PTensor t => Ok t
  | _ => as_torch dev v
  end.

(** [v.detach().cpu().numpy()] *)
Definition detach_cpu_numpy (g : bool) (v : tensor) : result ndarray :=
  tensor_numpy (tensor_cpu g (tensor_detach v)).

Local Open Scope m_scope.

(** [get_actions], lines 82-90: the body of the [with] block. *)
Definition rollout (self : StochasticPolicy) (observations : pyval)
  : M (ndarray * dict ndarray) :=
  dev <- get_global_device ;;
  observations <- lift (ensure_tensor dev observations) ;;
  let policy_input := mk_PolicyInput ROLLOUT observations in
  ' (dist, info) <- forward self policy_input ;;
  action <- sample dist ;;
  g <- is_grad_enabled ;;
  action <- lift (tensor_numpy (tensor_cpu g action)) ;;
  info <- lift (dict_comprehension (detach_cpu_numpy g) info) ;;
  ret (action, info).

Definition get_actions (self : StochasticPolicy) (observations : pyval)
  : M (ndarray * dict ndarray) :=
  g <- is_grad_enabled ;;
  observations <-
    lift (normalize_observations (observation_space self) g observations) ;;
  with_no_grad (rollout self observations).

Definition get_action (self : StochasticPolicy) (observation : pyval)
  : M (pyval * dict pyval) :=
  g <- is_grad_enabled ;;
  observation <-
    lift (normalize_observation (observation_space self) g observation) ;;
  with_no_grad (
    dev <- get_global_device ;;
    observation <- lift (ensure_tensor dev observation) ;;
    g <- is_grad_enabled ;;
    let observation := tensor_unsqueeze0 g observation in
    ' (action, agent_infos) <- get_actions self (PTensor observation) ;;
    action0 <- lift (nd_getitem0 action) ;;
    agent_infos0 <- lift (dict_comprehension nd_getitem0 agent_infos) ;;
    ret (action0, agent_infos0)).

(** ** Vocabulary of the properties *)

(** The Python type of a value, as [isinstance] and [type] see it. *)
Inductive pytype : Type :=
| TFloat
| TNpScalar
| TList
| TNdarray
| TTensor.

Definition type_of (v : pyval) : pytype :=
  match v with
  | PFloat _ => TFloat
  | PNpScalar _ => TNpScalar
  | PList _ => TList
  | PArr _ => TNdarray
  | PTensor _ => TTensor
  end.

(** Neither an [np.ndarray] nor a [torch.Tensor]: a raw observation. *)
Definition is_raw (v : pyval) : bool :=
  negb (isinstance_ndarray v) && negb (isinstance_tensor v).

(** A plain numpy value held in host memory: an ndarray, or the numpy
    scalar that indexing a one-dimensional ndarray yields. *)
Definition host_plain (v : pyval) : bool :=
  match v with
  | PArr _ | PNpScalar _ => true
  | _ => false
  end.

Definition leading (shape : list nat) : option nat :=
  match shape with
  | [] => None
  | n :: _ => Some n
  end.

(** [len(v)]: the number of observations in a batch. *)
Definition batch_size (v : pyval) : option nat :=
  match v with
  | PList items => Some (length items)
  | PArr a => leading (nd_shape a)
  | PTensor t => leading (t_shape t)
  | _ => None
  end.

(** [a[np.newaxis]]: the batch of one that holds [a]. *)
Definition nd_unsqueeze0 (a : ndarray) : ndarray :=
  mk_ndarray (1 :: nd_shape a) (nd_data a).

(** What [get_action] does to the pair [get_actions] returns:
    [action[0], {k: v[0] for k, v in agent_infos.items()}]. *)
Definition index0 (r : ndarray * dict ndarray) : result (pyval * dict pyval) :=
  (action0 <~ nd_getitem0 (fst r) ;;
   agent_infos0 <~ dict_comprehension nd_getitem0 (snd r) ;;
   Ok (action0, agent_infos0))%result.

Definition unbatch (out : result (ndarray * dict ndarray) * world)
  : result (pyval * dict pyval) * world :=
  (rbind (fst out) index0, snd out).

(** The observation space flattens the batch of one built from [x] the
    way it flattens [x], and its flat form has at most one axis. *)
Definition coherent (space : Space) (x batch1 : pyval) : Prop :=
  flatten_n space batch1 = rmap nd_unsqueeze0 (flatten space x)
  /\ forall a, flatten space x = Ok a -> length (nd_shape a) <= 1.

(** The observation encodings of the batch/unbatch law: a tensor that is
    plain data, an array, or a raw observation, the last two over a
    space whose two transforms agree on them. *)
Definition supported (space : Space) (g : bool) (x : pyval) : Prop :=
  match x with
  | PTensor t => t_requires_grad t && g = false
  | PArr a =>
      if 1 <? length (nd_shape a)
      then coherent space x (PArr (nd_unsqueeze0 a))
      else True
  | _ => coherent space x (PList [x])
  end.

(** What the law needs of the two normalizations: [get_action]'s, then
    the conversion to a tensor and the new leading axis, yields the
    tensor that [get_actions] reaches from the one-element list, fails
    where it fails, and passes the inner [get_actions] unchanged. *)
Definition batch_of_one_spec (space : Space) (g : bool) (dev : device)
    (x : pyval) : Prop :=
  match normalize_observation space g x with
  | Err e => normalize_observations space g (PList [x]) = Err e
  | Ok v =>
      exists t vb,
        ensure_tensor dev v = Ok t
        /\ normalize_observations space g (PList [x]) = Ok vb
        /\ ensure_tensor dev vb = Ok (tensor_unsqueeze0 false t)
        /\ normalize_observations space false
             (PTensor (tensor_unsqueeze0 false t))
           = Ok (PTensor (tensor_unsqueeze0 false t))
  end.

(** [flatten_n] keeps the number of observations. *)
Definition keeps_batch (space : Space) : Prop :=
  forall v b, flatten_n space v = Ok b ->
    leading (nd_shape b) = batch_size v.

(** The model answers a batch of [N] observations with [N] samples and
    [N]-aligned statistics. *)
Definition model_keeps_batch (self : StochasticPolicy) : Prop :=
  forall t w d info w1,
    forward self (mk_PolicyInput ROLLOUT t) w = (Ok (d, info), w1) ->
    (forall w2 s w3, sample d w2 = (Ok s, w3) ->
       leading (t_shape s) = leading (t_shape t))
    /\ Forall (fun v => leading (t_shape v) = leading (t_shape t))
         (values info).

(** A deterministic stub: [forward] is a pure function of its input and
    the sample of every distribution it returns is fixed. *)
Definition deterministic_stub (self : StochasticPolicy) : Prop :=
  exists F : PolicyInput -> result (Distribution * dict tensor),
    (forall policy_input w, forward self policy_input w = (F policy_input, w))
    /\ (forall policy_input d info, F policy_input = Ok (d, info) ->
          exists s, forall w, sample d w = (s, w)).

(** [forward] leaves a disabled grad mode disabled. *)
Definition forward_keeps_no_grad (self : StochasticPolicy) : Prop :=
  forall policy_input w d info w1,
    grad_enabled w = false ->
    forward self policy_input w = (Ok (d, info), w1) ->
    grad_enabled w1 = false.

(** A model with run-time assertions added: [forward] refuses to run in
    grad mode or on an input that is not tagged [ROLLOUT], and the
    distributions it returns refuse to sample in grad mode. *)
Definition guarded_dist (d : Distribution) : Distribution :=
  mk_Distribution (fun w =>
    if grad_enabled w then (Err (ModelError "sample in grad mode"), w)
    else sample d w).

Definition guarded_forward (self : StochasticPolicy)
    (policy_input : PolicyInput) : M (Distribution * dict tensor) :=
  fun w =>
    if grad_enabled w then (Err (ModelError "forward in grad mode"), w)
    else match mode policy_input with
         | ROLLOUT =>
             match forward self policy_input w with
             | (Ok (d, info), w1) => (Ok (guarded_dist d, info), w1)
             | (Err e, w1) => (Err e, w1)
             end
         | OTHER_MODE => (Err (ModelError "not a rollout input"), w)
         end.

Definition guarded (self : StochasticPolicy) : StochasticPolicy :=
  mk_StochasticPolicy (observation_space self) (guarded_forward self).

(** The steps [normalize_observations] applies to a batch, in order; a
    batch that passes through unchanged has none. *)
Inductive step : Type :=
| FlattenRaw
| StackArrays
| StackTensors
| FlattenRanked
| FlattenTensor.

Definition raw_steps (g : bool) (observations : pyval) : list step :=
  match getitem0 g observations with
  | Ok first => if is_raw first then [FlattenRaw] else []
  | Err _ => []
  end.

Definition stack_steps (g : bool) (observations : pyval) : list step :=
  match observations with
  | PList _ =>
      match getitem0 g observations with
      | Ok first =>
          if isinstance_ndarray first then [StackArrays]
          else if isinstance_tensor first then [StackTensors]
          else []
      | Err _ => []
      end
  | _ => []
  end.

Definition ranked_steps (g : bool) (observations : pyval) : list step :=
  match getitem0 g observations with
  | Ok first =>
      if isinstance_ndarray first && (1 <? shape_len first)
      then [FlattenRanked]
      else if isinstance_tensor first && (1 <? shape_len first)
      then [FlattenTensor]
      else []
  | Err _ => []
  end.

Definition normalization_steps (space : Space) (g : bool)
    (observations : pyval) : list step :=
  let s1 := raw_steps g observations in
  match flatten_raw_batch space g observations with
  | Err _ => s1
  | Ok v1 =>
      let s2 := stack_steps g v1 in
      match stack_list_batch g v1 with
      | Err _ => s1 ++ s2
      | Ok v2 => s1 ++ s2 ++ ranked_steps g v2
      end
  end.

Definition run_step (space : Space) (g : bool) (s : step) (v : pyval)
  : result pyval :=
  match s with
  | FlattenRaw | FlattenRanked => rmap PArr (flatten_n space v)
  | StackArrays =>
      match v with
      | PList items => rmap PArr (np_stack items)
      | _ => Err TypeError
      end
  | StackTensors =>
      match v with
      | PList items => rmap PTensor (torch_stack g items)
      | _ => Err TypeError
      end
  | FlattenTensor => py_torch_flatten_start1 g v
  end.

Fixpoint run_steps (space : Space) (g : bool) (steps : list step)
    (v : pyval) : result pyval :=
  match steps with
  | [] => Ok v
  | s :: rest => rbind (run_step space g s v) (run_steps space g rest)
  end.

(** The steps as a function of what the code looks at: whether the
    batch is a plain list, and the type and the rank of its first
    element. *)
Definition expected_steps (is_list : bool) (first_type : pytype)
    (first_rank : nat) : list step :=
  match first_type with
  | TNdarray =>
      (if is_list then [StackArrays] else [])
      ++ (if 1 <? first_rank then [FlattenRanked] else [])
  | TTensor =>
      (if is_list then [StackTensors] else [])
      ++ (if 1 <? first_rank then [FlattenTensor] else [])
  | _ => [FlattenRaw]
  end.

(** [flatten_n] returns a batch of flat rows. *)
Definition flat_rows (space : Space) (observations : pyval) : Prop :=
  forall b, flatten_n space observations = Ok b -> length (nd_shape b) <= 2.

(** ** A concrete observation space and a stub model

    Used to run the methods on concrete inputs. *)

(** A box space: [flatten] is [np.asarray(x).flatten()], [flatten_n] is
    [np.asarray(xs).reshape((len(xs), -1))]. *)
Definition box_flatten (v : pyval) : result ndarray :=
  (a <~ asarray v ;;
   Ok (mk_ndarray [length (nd_data a)] (nd_data a)))%result.

Definition box_flatten_n (v : pyval) : result ndarray :=
  (a <~ asarray v ;;
   match nd_shape a with
   | [] => Err TypeError
   | 0 :: _ => Err ValueError
   | S n :: s => Ok (mk_ndarray [S n; numel s] (nd_data a))
   end)%result.

Definition box : Space := mk_Space box_flatten box_flatten_n.

(** The two sums [x1 + x2] and [x3 + x4] of every row of four. *)
Fixpoint pair_sums (data : list scalar) : list scalar :=
  match data with
  | x1 :: x2 :: x3 :: x4 :: rest =>
      (x1 + x2)%Z :: (x3 + x4)%Z :: pair_sums rest
  | _ => []
  end.

Definition stub_result (policy_input : PolicyInput)
  : result (Distribution * dict tensor) :=
  let obs := observations policy_input in
  match t_shape obs with
  | [n; 4] =>
      let act := pair_sums (t_data obs) in
      Ok (mk_Distribution (ret (mk_tensor [n; 2] act (CUDA 0) false)),
          [("mean"%string, mk_tensor [n; 2] act (CUDA 0) true);
           ("log_std"%string,
            mk_tensor [n; 2] (repeat 0%Z (n * 2)) CPU true)])
  | _ => Err (ModelError "shape")
  end.

(** A model for observations of dimension 4 and actions of dimension 2:
    the sample is a fixed function of the batch, the two statistics are
    attached to the graph and one of them is left on an accelerator. *)
Definition stub_forward (policy_input : PolicyInput)
  : M (Distribution * dict tensor) :=
  lift (stub_result policy_input).

Definition stub_policy : StochasticPolicy :=
  mk_StochasticPolicy box stub_forward.

Definition w0 : world := mk_world true CPU 0.

Definition row (x1 x2 x3 x4 : Z) : pyval :=
  PList [PFloat x1; PFloat x2; PFloat x3; PFloat x4].

Definition arr4 (x1 x2 x3 x4 : Z) : ndarray :=
  mk_ndarray [4] [x1; x2; x3; x4].

Definition arr22 (x1 x2 x3 x4 : Z) : ndarray :=
  mk_ndarray [2; 2] [x1; x2; x3; x4].

Definition tensor22 (dev : device) (attached : bool) : tensor :=
  mk_tensor [2; 2] [1; 2; 3; 4]%Z dev attached.

(** Two models that fail: one in [forward], one in [sample]. *)
Definition failing_forward (policy_input : PolicyInput)
  : M (Distribution * dict tensor) :=
  lift (Err (ModelError "forward failed")).

Definition failing_sample_forward (policy_input : PolicyInput)
  : M (Distribution * dict tensor) :=
  ret (mk_Distribution (lift (Err (ModelError "sample failed"))),
       [("mean"%string, observations policy_input)]).

Definition failing_policy : StochasticPolicy :=
  mk_StochasticPolicy box failing_forward.

Definition failing_sample_policy : StochasticPolicy :=
  mk_StochasticPolicy box failing_sample_forward.

(** ** Further vocabulary *)

(** The tensor [get_actions] hands to [forward]: lines 62-81, then the
    conversion of lines 83-84. *)
Definition model_input (space : Space) (g : bool) (dev : device)
    (observations : pyval) : result tensor :=
  (v <~ normalize_observations space g observations ;;
   ensure_tensor dev v)%result.

(** [a[0]] exists: [a] has a leading axis that is not empty. *)
Definition has_row0 (a : ndarray) : bool :=
  match nd_shape a with
  | S _ :: _ => true
  | _ => false
  end.

(** [t.numpy()] of a tensor that allows it. *)
Definition to_ndarray (t : tensor) : ndarray :=
  mk_ndarray (t_shape t) (t_data t).

(** [np.array(x)]: a zero-dimensional ndarray. *)
Definition zero_dim (x : scalar) : pyval := PArr (mk_ndarray [] [x]).

(** A tensor observation as one row: a leading axis of length 1 before
    its own axis, or before all its elements when it has several axes;
    the same elements on the same device, detached. *)
Definition one_row (t : tensor) : tensor :=
  mk_tensor
    (match t_shape t with
     | [] => [1]
     | [n] => [1; n]
     | s => [1; numel s]
     end)
    (t_data t) (t_device t) false.

(** A model whose sample is a zero-dimensional tensor. *)
Definition rowless_forward (policy_input : PolicyInput)
  : M (Distribution * dict tensor) :=
  ret (mk_Distribution (ret (mk_tensor [] [7%Z] CPU false)), []).

Definition rowless_policy : StochasticPolicy :=
  mk_StochasticPolicy box rowless_forward.

(** ** Unfolding the methods *)

(** Case analysis on every [match] scrutinee in the goal. *)
Ltac break_matches :=
  repeat match goal with
         | |- context [match ?x with _ => _ end] => destruct x eqn:?
         end.

Lemma with_no_grad_eq {A} (body : M A) w :
  with_no_grad body w =
  (fst (body (set_grad_enabled false w)),
   set_grad_enabled (grad_enabled w) (snd (body (set_grad_enabled false w)))).
Proof.
  unfold with_no_grad. destruct (body (set_grad_enabled false w)); reflexivity.
Qed.

Lemma get_actions_eq self obs w :
  get_actions self obs w =
  match normalize_observations (observation_space self) (grad_enabled w) obs with
  | Ok v => with_no_grad (rollout self v) w
  | Err e => (Err e, w)
  end.
Proof.
  unfold get_actions, bind, is_grad_enabled, lift.
  destruct (normalize_observations _ _ _); reflexivity.
Qed.

Lemma rollout_eq self v w :
  rollout self v w =
  match ensure_tensor (global_device w) v with
  | Err e => (Err e, w)
  | Ok t =>
      match forward self (mk_PolicyInput ROLLOUT t) w with
      | (Err e, w1) => (Err e, w1)
      | (Ok (d, info), w1) =>
          match sample d w1 with
          | (Err e, w2) => (Err e, w2)
          | (Ok s, w2) =>
              match tensor_numpy (tensor_cpu (grad_enabled w2) s) with
              | Err e => (Err e, w2)
              | Ok a =>
                  match dict_comprehension
                          (detach_cpu_numpy (grad_enabled w2)) info with
                  | Err e => (Err e, w2)
                  | Ok infos => (Ok (a, infos), w2)
                  end
              end
          end
      end
  end.
Proof.
  unfold rollout, bind, get_global_device, is_grad_enabled, lift, ret.
  destruct (ensure_tensor _ _); [|reflexivity].
  destruct (forward _ _ _) as [[[d info]|e] w1]; [|reflexivity].
  destruct (sample d w1) as [[s|e] w2]; [|reflexivity].
  destruct (tensor_numpy _); [|reflexivity].
  destruct (dict_comprehension _ _); reflexivity.
Qed.

Lemma get_action_eq self x w :
  get_action self x w =
  match normalize_observation (observation_space self) (grad_enabled w) x with
  | Err e => (Err e, w)
  | Ok v =>
      match ensure_tensor (global_device w) v with
      | Err e => (Err e, w)
      | Ok t =>
          let out := get_actions self (PTensor (tensor_unsqueeze0 false t))
                       (set_grad_enabled false w) in
          (rbind (fst out) index0, set_grad_enabled (grad_enabled w) (snd out))
      end
  end.
Proof.
  unfold get_action, bind at 1 2. unfold is_grad_enabled at 1, lift at 1.
  destruct (normalize_observation _ _ _) as [v|e]; [|reflexivity].
  rewrite with_no_grad_eq.
  unfold bind, get_global_device, is_grad_enabled, lift, ret. simpl.
  destruct (ensure_tensor _ _) as [t|e]; simpl.
  2:{ destruct w; reflexivity. }
  destruct (get_actions _ _ _) as [[[action infos]|e] w1]; simpl; [|reflexivity].
  unfold index0; simpl.
  destruct (nd_getitem0 action); simpl; [|reflexivity].
  destruct (dict_comprehension _ _); reflexivity.
Qed.

Lemma set_grad_enabled_same w : set_grad_enabled (grad_enabled w) w = w.
Proof. destruct w; reflexivity. Qed.

Lemma grad_enabled_set b w : grad_enabled (set_grad_enabled b w) = b.
Proof. reflexivity. Qed.

Lemma global_device_set b w :
  global_device (set_grad_enabled b w) = global_device w.
Proof. reflexivity. Qed.

Lemma set_grad_enabled_twice b c w :
  set_grad_enabled b (set_grad_enabled c w) = set_grad_enabled b w.
Proof. reflexivity. Qed.

(** ** Empty batches *)

(** C10: on an empty batch (an empty list, an ndarray or a tensor whose
    leading dimension is 0) [get_actions] raises [IndexError] at the
    first-element inspection of line 62: the very first normalization
    stage already fails, and the outcome is [IndexError] in the unchanged
    state whatever the observation space and the model are, so no
    stacking, flattening or forward computation took part in it. *)
Theorem get_actions_empty_batch (self : StochasticPolicy) (w : world) :
  (forall space g, flatten_raw_batch space g (PList []) = Err IndexError)
  /\ get_actions self (PList []) w = (Err IndexError, w)
  /\ (forall s data,
        get_actions self (PArr (mk_ndarray (0 :: s) data)) w
        = (Err IndexError, w))
  /\ (forall s data dev attached,
        get_actions self (PTensor (mk_tensor (0 :: s) data dev attached)) w
        = (Err IndexError, w)).
Proof.
  repeat split; intros; try reflexivity; rewrite get_actions_eq; reflexivity.
Qed.

(** ** The no-grad scope *)

Lemma get_actions_restores self obs w :
  grad_enabled (snd (get_actions self obs w)) = grad_enabled w.
Proof.
  rewrite get_actions_eq.
  destruct (normalize_observations _ _ _); [|reflexivity].
  rewrite with_no_grad_eq. reflexivity.
Qed.

Lemma get_action_restores self x w :
  grad_enabled (snd (get_action self x w)) = grad_enabled w.
Proof.
  rewrite get_action_eq.
  destruct (normalize_observation _ _ _); [|reflexivity].
  destruct (ensure_tensor _ _); reflexivity.
Qed.

Lemma rollout_guarded self v w :
  forward_keeps_no_grad self ->
  grad_enabled w = false ->
  rollout (guarded self) v w = rollout self v w.
Proof.
  intros Hkeep Hw. rewrite !rollout_eq.
  destruct (ensure_tensor _ _) as [t|e]; [|reflexivity].
  simpl. unfold guarded_forward. rewrite Hw. simpl.
  destruct (forward self _ w) as [[[d info]|e] w1] eqn:Hf; [|reflexivity].
  simpl. rewrite (Hkeep _ _ _ _ _ Hw Hf). reflexivity.
Qed.

Lemma get_actions_guarded self obs w :
  forward_keeps_no_grad self ->
  get_actions (guarded self) obs w = get_actions self obs w.
Proof.
  intros Hkeep. rewrite !get_actions_eq. simpl.
  destruct (normalize_observations _ _ _); [|reflexivity].
  rewrite !with_no_grad_eq, rollout_guarded by (assumption || reflexivity).
  reflexivity.
Qed.

Lemma get_action_guarded self x w :
  forward_keeps_no_grad self ->
  get_action (guarded self) x w = get_action self x w.
Proof.
  intros Hkeep. rewrite !get_action_eq. simpl.
  destruct (normalize_observation _ _ _); [|reflexivity].
  destruct (ensure_tensor _ _); [|reflexivity].
  rewrite get_actions_guarded by assumption. reflexivity.
Qed.

(** C9: the forward pass and the sampling run inside the no-grad scope,
    and the input of [forward] is tagged [ROLLOUT].  On every path,
    exceptions included, both methods leave the grad mode as they found
    it; and for a model whose [forward] does not itself switch grad mode
    back on, adding assertions to the model ([forward] refuses to run in
    grad mode or on an input not tagged [ROLLOUT], [sample] refuses to
    run in grad mode) changes nothing: they never fire. *)
Theorem no_grad_scope (self : StochasticPolicy) (obs : pyval) (w : world) :
  forward_keeps_no_grad self ->
  grad_enabled (snd (get_actions self obs w)) = grad_enabled w
  /\ grad_enabled (snd (get_action self obs w)) = grad_enabled w
  /\ get_actions (guarded self) obs w = get_actions self obs w
  /\ get_action (guarded self) obs w = get_action self obs w.
Proof.
  intros Hkeep. repeat split.
  - apply get_actions_restores.
  - apply get_action_restores.
  - apply get_actions_guarded, Hkeep.
  - apply get_action_guarded, Hkeep.
Qed.

Lemma stub_keeps_no_grad : forward_keeps_no_grad stub_policy.
Proof.
  intros policy_input w d info w1 Hw Hf. simpl in Hf.
  unfold stub_forward, lift in Hf. inversion Hf; subst. exact Hw.
Qed.

Lemma no_grad_scope_witness :
  let batch := PList [row 1 2 3 4; row 5 6 7 8; row 1 1 1 1] in
  forward_keeps_no_grad stub_policy
  /\ grad_enabled (snd (get_actions stub_policy batch w0)) = grad_enabled w0
  /\ grad_enabled (snd (get_action stub_policy batch w0)) = grad_enabled w0
  /\ get_actions (guarded stub_policy) batch w0 = get_actions stub_policy batch w0
  /\ get_action (guarded stub_policy) batch w0 = get_action stub_policy batch w0.
Proof.
  intro batch. split; [exact stub_keeps_no_grad|].
  exact (no_grad_scope stub_policy batch w0 stub_keeps_no_grad).
Defined.

(** ** Results handed to the caller *)

Lemma dict_comprehension_keys {V W} (f : V -> result W) d d' :
  dict_comprehension f d = Ok d' -> keys d' = keys d.
Proof.
  revert d'. induction d as [|[k v] rest IH]; simpl; intros d' H.
  - inversion H. reflexivity.
  - destruct (f v) as [x|e]; simpl in H; [|discriminate].
    destruct (dict_comprehension f rest) as [rest'|e]; simpl in H;
      [|discriminate].
    inversion H; subst. simpl. f_equal. apply IH. reflexivity.
Qed.

Lemma dict_comprehension_values {V W} (f : V -> result W) (P : V -> Prop)
    (Q : W -> Prop) d d' :
  (forall v x, P v -> f v = Ok x -> Q x) ->
  dict_comprehension f d = Ok d' ->
  Forall P (values d) -> Forall Q (values d').
Proof.
  intros Hf. revert d'. induction d as [|[k v] rest IH]; simpl; intros d' H HP.
  - inversion H. constructor.
  - destruct (f v) as [x|e] eqn:Hv; simpl in H; [|discriminate].
    destruct (dict_comprehension f rest) as [rest'|e]; simpl in H;
      [|discriminate].
    inversion H; subst. inversion HP; subst. simpl. constructor.
    + eapply Hf; eassumption.
    + apply IH; [reflexivity|assumption].
Qed.

Lemma Forall_True {A} (l : list A) : Forall (fun _ => True) l.
Proof. induction l; constructor; auto. Qed.

Lemma detach_cpu_numpy_eq g v :
  detach_cpu_numpy g v = Ok (mk_ndarray (t_shape v) (t_data v)).
Proof.
  unfold detach_cpu_numpy, tensor_cpu, tensor_detach, tensor_numpy. simpl.
  destruct (t_device v); reflexivity.
Qed.

Lemma detach_all_eq g (info : dict tensor) :
  dict_comprehension (detach_cpu_numpy g) info =
  Ok (map (fun kv => (fst kv, mk_ndarray (t_shape (snd kv)) (t_data (snd kv))))
        info).
Proof.
  induction info as [|[k v] rest IH]; simpl; [reflexivity|].
  rewrite detach_cpu_numpy_eq, IH. reflexivity.
Qed.

Lemma nd_getitem0_host a v : nd_getitem0 a = Ok v -> host_plain v = true.
Proof.
  unfold nd_getitem0.
  destruct (nd_shape a) as [|[|n] [|m s]]; intros H; inversion H; reflexivity.
Qed.

(** What a successful [rollout] went through. *)
Lemma rollout_ok self v w a infos w' :
  rollout self v w = (Ok (a, infos), w') ->
  exists t d info w1 s,
    ensure_tensor (global_device w) v = Ok t
    /\ forward self (mk_PolicyInput ROLLOUT t) w = (Ok (d, info), w1)
    /\ sample d w1 = (Ok s, w')
    /\ tensor_numpy (tensor_cpu (grad_enabled w') s) = Ok a
    /\ dict_comprehension (detach_cpu_numpy (grad_enabled w')) info = Ok infos.
Proof.
  rewrite rollout_eq. intros H.
  destruct (ensure_tensor _ _) as [t|e] eqn:Ht; [|discriminate].
  destruct (forward _ _ _) as [[[d info]|e] w1] eqn:Hf; [|discriminate].
  destruct (sample d w1) as [[s|e] w2] eqn:Hs; [|discriminate].
  destruct (tensor_numpy _) as [a'|e] eqn:Ha; [|discriminate].
  destruct (dict_comprehension _ _) as [infos'|e] eqn:Hd; [|discriminate].
  inversion H; subst. exists t, d, info, w1, s. repeat split; try reflexivity; try assumption.
Qed.

Lemma get_actions_ok self obs w a infos w' :
  get_actions self obs w = (Ok (a, infos), w') ->
  exists v t d info w1 s w2,
    normalize_observations (observation_space self) (grad_enabled w) obs = Ok v
    /\ ensure_tensor (global_device w) v = Ok t
    /\ forward self (mk_PolicyInput ROLLOUT t) (set_grad_enabled false w)
       = (Ok (d, info), w1)
    /\ sample d w1 = (Ok s, w2)
    /\ tensor_numpy (tensor_cpu (grad_enabled w2) s) = Ok a
    /\ dict_comprehension (detach_cpu_numpy (grad_enabled w2)) info = Ok infos
    /\ w' = set_grad_enabled (grad_enabled w) w2.
Proof.
  rewrite get_actions_eq. intros H.
  destruct (normalize_observations _ _ _) as [v|e] eqn:Hn; [|discriminate].
  rewrite with_no_grad_eq in H.
  destruct (rollout self v (set_grad_enabled false w)) as [r w2] eqn:Hr.
  simpl in H. inversion H; subst.
  apply rollout_ok in Hr. destruct Hr as (t & d & info & w1 & s & H1).
  exists v, t, d, info, w1, s, w2. intuition.
Qed.

Lemma tensor_numpy_shape t a : tensor_numpy t = Ok a -> nd_shape a = t_shape t.
Proof.
  unfold tensor_numpy. destruct (t_requires_grad t); [discriminate|].
  destruct (t_device t); intros H; inversion H; reflexivity.
Qed.

Lemma tensor_numpy_data t a : tensor_numpy t = Ok a -> nd_data a = t_data t.
Proof.
  unfold tensor_numpy. destruct (t_requires_grad t); [discriminate|].
  destruct (t_device t); intros H; inversion H; reflexivity.
Qed.

Lemma tensor_cpu_data g t : t_data (tensor_cpu g t) = t_data t.
Proof. unfold tensor_cpu. destruct (t_device t); reflexivity. Qed.

Lemma tensor_cpu_shape g t : t_shape (tensor_cpu g t) = t_shape t.
Proof. unfold tensor_cpu. destruct (t_device t); reflexivity. Qed.

Lemma sample_to_host s :
  (t_device s = CPU -> t_requires_grad s = false) ->
  tensor_numpy (tensor_cpu false s) = Ok (mk_ndarray (t_shape s) (t_data s)).
Proof.
  intros Hs. unfold tensor_numpy, tensor_cpu.
  destruct (t_device s) eqn:Hdev; simpl.
  - rewrite (Hs eq_refl), Hdev. reflexivity.
  - rewrite andb_false_r. reflexivity.
Qed.

Lemma attached_host_sample g s :
  t_device s = CPU -> t_requires_grad s = true ->
  tensor_numpy (tensor_cpu g s) = Err RuntimeError.
Proof.
  intros Hdev Hgrad. unfold tensor_numpy, tensor_cpu.
  rewrite Hdev, Hgrad. reflexivity.
Qed.

(** C5: whatever the model's [forward] produced, what reaches the caller
    is plain numpy data in host memory.  A tensor of the info map is
    turned into the ndarray of its shape and elements on whatever device
    it was and whether or not it was attached to a graph, so the
    conversion of the info map never fails; inside the no-grad scope a
    sample held on an accelerator, or held on the host and detached, is
    turned into the ndarray of its shape and elements, and a sample held
    on the host and attached makes the call raise; every value
    [get_actions] returns is an ndarray and every value [get_action]
    returns is an ndarray or a numpy scalar, never a tensor. *)
Theorem outputs_host_resident (self : StochasticPolicy) (obs : pyval)
    (w : world) :
  (forall g info,
     dict_comprehension (detach_cpu_numpy g) info =
     Ok (map (fun kv => (fst kv,
                         mk_ndarray (t_shape (snd kv)) (t_data (snd kv))))
           info))
  /\ (forall s,
        (t_device s = CPU -> t_requires_grad s = false) ->
        tensor_numpy (tensor_cpu false s)
        = Ok (mk_ndarray (t_shape s) (t_data s)))
  /\ (forall g s,
        t_device s = CPU -> t_requires_grad s = true ->
        tensor_numpy (tensor_cpu g s) = Err RuntimeError)
  /\ match get_actions self obs w with
     | (Ok (action, infos), _) =>
         host_plain (PArr action) = true
         /\ Forall (fun v => host_plain (PArr v) = true) (values infos)
     | (Err _, _) => True
     end
  /\ match get_action self obs w with
     | (Ok (action, infos), _) =>
         host_plain action = true
         /\ Forall (fun v => host_plain v = true) (values infos)
     | (Err _, _) => True
     end.
Proof.
  split; [intros; apply detach_all_eq|].
  split; [intros s Hs; apply sample_to_host, Hs|].
  split; [intros g s Hdev Hgrad; apply attached_host_sample; assumption|].
  split.
  - destruct (get_actions self obs w) as [[[a infos]|e] w']; [|exact I].
    split; [reflexivity|].
    induction (values infos); constructor; auto.
  - rewrite get_action_eq.
    destruct (normalize_observation _ _ _) as [v|e]; [|exact I].
    destruct (ensure_tensor _ _) as [t|e]; [|exact I].
    destruct (get_actions _ _ _) as [[[a infos]|e] w']; simpl; [|exact I].
    unfold index0; simpl.
    destruct (nd_getitem0 a) as [a0|e] eqn:Ha; simpl; [|exact I].
    destruct (dict_comprehension nd_getitem0 infos) as [infos0|e] eqn:Hd;
      simpl; [|exact I].
    split; [eapply nd_getitem0_host; eassumption|].
    eapply dict_comprehension_values with (P := fun _ => True);
      [|exact Hd|apply Forall_True].
    intros v0 x _ Hx. eapply nd_getitem0_host; eassumption.
Qed.

Lemma outputs_host_resident_witness :
  let batch := PList [row 1 2 3 4; row 5 6 7 8; row 1 1 1 1] in
  let sample_on_gpu := mk_tensor [3; 2] [3; 7; 11; 15; 2; 2]%Z (CUDA 0) true in
  let action := mk_ndarray [3; 2] [3; 7; 11; 15; 2; 2]%Z in
  let infos := [("mean"%string, action);
                ("log_std"%string, mk_ndarray [3; 2] [0; 0; 0; 0; 0; 0]%Z)] in
  (t_device sample_on_gpu = CPU -> t_requires_grad sample_on_gpu = false)
  /\ tensor_numpy (tensor_cpu false sample_on_gpu) = Ok action
  /\ get_actions stub_policy batch w0 = (Ok (action, infos), w0)
  /\ host_plain (PArr action) = true
  /\ Forall (fun v => host_plain (PArr v) = true) (values infos).
Proof.
  intros batch sample_on_gpu action infos.
  assert (Hs : t_device sample_on_gpu = CPU ->
               t_requires_grad sample_on_gpu = false)
    by (intros H; discriminate H).
  destruct (outputs_host_resident stub_policy batch w0)
    as (_ & Hsample & _ & Hbatch & _).
  split; [exact Hs|]. split; [exact (Hsample sample_on_gpu Hs)|].
  split; [reflexivity|]. exact Hbatch.
Defined.

(** ** Errors *)

(** C6: an exception of the model's [forward] or of the distribution's
    [sample] leaves [get_actions] as that very exception, and an exception
    of the inner [get_actions] call leaves [get_action] as that very
    exception; the only thing done on the way out is the exit of the
    no-grad scope.  A call that returns went through a successful
    [forward] and a successful [sample] and returns the sample's array
    together with an entry for every key of the model's info map. *)
Theorem errors_propagate (self : StochasticPolicy) (obs : pyval) (w : world)
    (v : pyval) (t : tensor) :
  normalize_observations (observation_space self) (grad_enabled w) obs = Ok v ->
  ensure_tensor (global_device w) v = Ok t ->
  let policy_input := mk_PolicyInput ROLLOUT t in
  let inside := set_grad_enabled false w in
  (forall e w1,
     forward self policy_input inside = (Err e, w1) ->
     get_actions self obs w = (Err e, set_grad_enabled (grad_enabled w) w1))
  /\ (forall d info w1 e w2,
        forward self policy_input inside = (Ok (d, info), w1) ->
        sample d w1 = (Err e, w2) ->
        get_actions self obs w
        = (Err e, set_grad_enabled (grad_enabled w) w2))
  /\ (forall action infos w',
        get_actions self obs w = (Ok (action, infos), w') ->
        exists d info w1 s w2,
          forward self policy_input inside = (Ok (d, info), w1)
          /\ sample d w1 = (Ok s, w2)
          /\ nd_shape action = t_shape s
          /\ nd_data action = t_data s
          /\ keys infos = keys info)
  /\ (forall x vx tx e w1,
        normalize_observation (observation_space self) (grad_enabled w) x
        = Ok vx ->
        ensure_tensor (global_device w) vx = Ok tx ->
        get_actions self (PTensor (tensor_unsqueeze0 false tx)) inside
        = (Err e, w1) ->
        get_action self x w = (Err e, set_grad_enabled (grad_enabled w) w1)).
Proof.
  intros Hn Ht policy_input inside. repeat split.
  - intros e w1 Hf. rewrite get_actions_eq, Hn, with_no_grad_eq, rollout_eq.
    simpl. rewrite Ht. fold policy_input inside. rewrite Hf. reflexivity.
  - intros d info w1 e w2 Hf Hs.
    rewrite get_actions_eq, Hn, with_no_grad_eq, rollout_eq.
    simpl. rewrite Ht. fold policy_input inside. rewrite Hf, Hs. reflexivity.
  - intros action infos w' H.
    apply get_actions_ok in H.
    destruct H as (v' & t' & d & info & w1 & s & w2 & H1 & H2 & H3 & H4 & H5
                   & H6 & H7).
    rewrite Hn in H1. inversion H1; subst v'.
    rewrite Ht in H2. inversion H2; subst t'.
    exists d, info, w1, s, w2. repeat split; try assumption.
    + rewrite (tensor_numpy_shape _ _ H5). apply tensor_cpu_shape.
    + rewrite (tensor_numpy_data _ _ H5). apply tensor_cpu_data.
    + eapply dict_comprehension_keys; eassumption.
  - intros x vx tx e w1 Hx Htx Hg.
    rewrite get_action_eq, Hx, Htx. simpl. fold inside. rewrite Hg.
    reflexivity.
Qed.

Lemma errors_propagate_witness :
  let batch := PArr (mk_ndarray [2; 4] [1; 2; 3; 4; 5; 6; 7; 8]%Z) in
  let t := mk_tensor [2; 4] [1; 2; 3; 4; 5; 6; 7; 8]%Z CPU false in
  normalize_observations box true batch = Ok batch
  /\ ensure_tensor CPU batch = Ok t
  /\ get_actions failing_policy batch w0
     = (Err (ModelError "forward failed"), w0)
  /\ get_actions failing_sample_policy batch w0
     = (Err (ModelError "sample failed"), w0).
Proof.
  intros batch t.
  assert (Hn : normalize_observations box true batch = Ok batch)
    by reflexivity.
  assert (Ht : ensure_tensor CPU batch = Ok t) by reflexivity.
  split; [exact Hn|]. split; [exact Ht|]. split.
  - exact (proj1 (errors_propagate failing_policy batch w0 batch t Hn Ht)
             (ModelError "forward failed") (set_grad_enabled false w0)
             eq_refl).
  - exact (proj1 (proj2 (errors_propagate failing_sample_policy batch w0
                           batch t Hn Ht))
             (mk_Distribution (lift (Err (ModelError "sample failed"))))
             [("mean"%string, t)] (set_grad_enabled false w0)
             (ModelError "sample failed") (set_grad_enabled false w0)
             eq_refl eq_refl).
Defined.

(** ** Determinism *)

Lemma rollout_deterministic self v w w' :
  deterministic_stub self ->
  grad_enabled w = grad_enabled w' ->
  global_device w = global_device w' ->
  fst (rollout self v w) = fst (rollout self v w')
  /\ snd (rollout self v w) = w.
Proof.
  intros (F & HF & Hsample) Hg Hd. rewrite !rollout_eq, <- Hd.
  destruct (ensure_tensor _ _) as [t|e]; [|split; reflexivity].
  rewrite !HF.
  destruct (F _) as [[d info]|e] eqn:HFt; [|split; reflexivity].
  destruct (Hsample _ _ _ HFt) as [s Hs]. rewrite !Hs, <- Hg.
  destruct s as [s|e]; [|split; reflexivity].
  destruct (tensor_numpy _); [|split; reflexivity].
  destruct (dict_comprehension _ _); split; reflexivity.
Qed.

Lemma get_actions_deterministic self obs w w' :
  deterministic_stub self ->
  grad_enabled w = grad_enabled w' ->
  global_device w = global_device w' ->
  fst (get_actions self obs w) = fst (get_actions self obs w')
  /\ snd (get_actions self obs w) = w.
Proof.
  intros Hdet Hg Hd. rewrite !get_actions_eq, <- Hg.
  destruct (normalize_observations _ _ _) as [v|e]; [|split; reflexivity].
  rewrite !with_no_grad_eq. simpl.
  destruct (rollout_deterministic self v (set_grad_enabled false w)
              (set_grad_enabled false w') Hdet eq_refl Hd) as [H1 H2].
  split; [exact H1|]. rewrite H2. destruct w; reflexivity.
Qed.

Lemma get_action_deterministic self x w w' :
  deterministic_stub self ->
  grad_enabled w = grad_enabled w' ->
  global_device w = global_device w' ->
  fst (get_action self x w) = fst (get_action self x w')
  /\ snd (get_action self x w) = w.
Proof.
  intros Hdet Hg Hd. rewrite !get_action_eq, <- Hg, <- Hd.
  destruct (normalize_observation _ _ _) as [v|e]; [|split; reflexivity].
  destruct (ensure_tensor _ _) as [t|e]; [|split; reflexivity].
  simpl.
  destruct (get_actions_deterministic self
              (PTensor (tensor_unsqueeze0 false t))
              (set_grad_enabled false w) (set_grad_enabled false w')
              Hdet eq_refl Hd) as [H1 H2].
  rewrite H1, H2. split; [reflexivity|destruct w; reflexivity].
Qed.

(** C8: with a deterministic stub as the model, a call leaves the
    interpreter state as it found it and a second call with the same
    input returns the same outcome, for [get_actions] and for
    [get_action]; the outcome is the same from any two states that agree
    on the grad mode and the global device, whatever the state of the
    random generator. *)
Theorem repeated_calls_agree (self : StochasticPolicy) (obs : pyval)
    (w w' : world) :
  deterministic_stub self ->
  grad_enabled w = grad_enabled w' ->
  global_device w = global_device w' ->
  fst (get_actions self obs (snd (get_actions self obs w)))
  = fst (get_actions self obs w)
  /\ fst (get_action self obs (snd (get_action self obs w)))
     = fst (get_action self obs w)
  /\ fst (get_actions self obs w) = fst (get_actions self obs w')
  /\ fst (get_action self obs w) = fst (get_action self obs w').
Proof.
  intros Hdet Hg Hd.
  destruct (get_actions_deterministic self obs w w' Hdet Hg Hd) as [H1 H2].
  destruct (get_action_deterministic self obs w w' Hdet Hg Hd) as [H3 H4].
  rewrite H2, H4. repeat split; assumption.
Qed.

Lemma stub_deterministic : deterministic_stub stub_policy.
Proof.
  exists stub_result. split; [reflexivity|].
  intros policy_input d info. unfold stub_result.
  break_matches; try discriminate.
  intros H; inversion H; subst. eexists. intros w. reflexivity.
Qed.

Lemma repeated_calls_agree_witness :
  let batch := PList [row 1 2 3 4; row 5 6 7 8; row 1 1 1 1] in
  let w1 := mk_world true CPU 42 in
  deterministic_stub stub_policy
  /\ grad_enabled w0 = grad_enabled w1
  /\ global_device w0 = global_device w1
  /\ fst (get_actions stub_policy batch w0)
     = fst (get_actions stub_policy batch w1).
Proof.
  intros batch w1.
  split; [exact stub_deterministic|]. split; [reflexivity|].
  split; [reflexivity|].
  exact (proj1 (proj2 (proj2
           (repeated_calls_agree stub_policy batch w0 w1
              stub_deterministic eq_refl eq_refl)))).
Defined.

(** ** The batch dimension *)

Lemma mapM_length {A B} (f : A -> result B) l l' :
  mapM f l = Ok l' -> length l' = length l.
Proof.
  revert l'. induction l as [|x rest IH]; simpl; intros l' H.
  - inversion H. reflexivity.
  - destruct (f x); simpl in H; [|discriminate].
    destruct (mapM f rest); simpl in H; [|discriminate].
    inversion H. simpl. f_equal. apply IH. reflexivity.
Qed.

Lemma asarray_list items :
  asarray (PList items) = rbind (mapM asarray items) stack_arrays.
Proof.
  simpl. f_equal. induction items as [|x rest IH]; simpl; [reflexivity|].
  rewrite IH. reflexivity.
Qed.

Lemma stack_arrays_shape arrays b :
  stack_arrays arrays = Ok b ->
  leading (nd_shape b) = Some (length arrays).
Proof.
  unfold stack_arrays. destruct arrays as [|a rest].
  - intros H; inversion H. reflexivity.
  - destruct (forallb _ rest); intros H; inversion H. reflexivity.
Qed.

Lemma np_stack_leading items b :
  np_stack items = Ok b -> leading (nd_shape b) = Some (length items).
Proof.
  unfold np_stack. destruct (mapM asarray items) as [arrays|e] eqn:Hm;
    simpl; [|discriminate].
  rewrite <- (mapM_length _ _ _ Hm).
  destruct arrays; [discriminate|]. apply stack_arrays_shape.
Qed.

Lemma torch_stack_leading g items t :
  torch_stack g items = Ok t -> leading (t_shape t) = Some (length items).
Proof.
  unfold torch_stack. destruct (mapM as_tensor_item items) as [ts|e] eqn:Hm;
    simpl; [|discriminate].
  rewrite <- (mapM_length _ _ _ Hm).
  destruct ts as [|t0 rest]; [discriminate|].
  destruct (forallb _ rest); intros H; inversion H. reflexivity.
Qed.

Lemma torch_flatten_start1_leading g t t' :
  torch_flatten_start1 g t = Ok t' -> leading (t_shape t') = leading (t_shape t).
Proof.
  unfold torch_flatten_start1.
  destruct (t_shape t) as [|n [|m [|k s]]] eqn:Hs; intros H; inversion H;
    subst; simpl; try rewrite Hs; reflexivity.
Qed.

(** After the first two stages the batch is an ndarray or a tensor. *)
Lemma stacked_batch space g obs v1 v2 :
  flatten_raw_batch space g obs = Ok v1 ->
  stack_list_batch g v1 = Ok v2 ->
  isinstance_ndarray v2 || isinstance_tensor v2 = true
  /\ (keeps_batch space -> batch_size v2 = batch_size obs).
Proof.
  unfold flatten_raw_batch.
  destruct (getitem0 g obs) as [first|e] eqn:Hfirst; simpl; [|discriminate].
  destruct (negb (isinstance_ndarray first) && negb (isinstance_tensor first))
    eqn:Hraw.
  - destruct (flatten_n space obs) as [b|e] eqn:Hb; simpl; [|discriminate].
    intros H1 H2. inversion H1; subst v1. simpl in H2. inversion H2; subst v2.
    split; [reflexivity|]. intros Hkeep. simpl. apply Hkeep, Hb.
  - intros H1; inversion H1; subst v1. clear H1.
    destruct obs as [x|x|items|a|t]; simpl in Hfirst; try discriminate.
    + destruct items as [|x rest]; [discriminate|].
      inversion Hfirst; subst x. simpl.
      destruct first as [x|x|l|a|t]; simpl in *; try discriminate.
      * destruct (np_stack _) as [b|e] eqn:Hb; simpl; [|discriminate].
        intros H; inversion H; subst v2. split; [reflexivity|]. intros _.
        simpl. apply (np_stack_leading _ _ Hb).
      * destruct (torch_stack g _) as [b|e] eqn:Hb; simpl; [|discriminate].
        intros H; inversion H; subst v2. split; [reflexivity|]. intros _.
        simpl. apply (torch_stack_leading _ _ _ Hb).
    + simpl. intros H; inversion H. split; reflexivity.
    + simpl. intros H; inversion H. split; reflexivity.
Qed.

Lemma flatten_ranked_batch_size space g v2 v3 :
  isinstance_ndarray v2 || isinstance_tensor v2 = true ->
  flatten_ranked_batch space g v2 = Ok v3 ->
  isinstance_ndarray v3 || isinstance_tensor v3 = true
  /\ (keeps_batch space -> batch_size v3 = batch_size v2).
Proof.
  intros Hv2. unfold flatten_ranked_batch.
  destruct (getitem0 g v2) as [first|e]; simpl; [|discriminate].
  destruct (isinstance_ndarray first && (1 <? shape_len first)).
  - destruct (flatten_n space v2) as [b|e] eqn:Hb; simpl; [|discriminate].
    intros H; inversion H. split; [reflexivity|].
    intros Hkeep. simpl. apply Hkeep, Hb.
  - destruct (isinstance_tensor first && (1 <? shape_len first)).
    + destruct v2 as [x|x|items|a|t]; simpl; try discriminate.
      destruct (torch_flatten_start1 g t) as [t'|e] eqn:Ht; simpl;
        [|discriminate].
      intros H; inversion H. split; [reflexivity|]. intros _. simpl.
      apply (torch_flatten_start1_leading _ _ _ Ht).
    + intros H; inversion H; subst. split; [assumption|reflexivity].
Qed.

Lemma normalize_observations_size space g obs v :
  normalize_observations space g obs = Ok v ->
  isinstance_ndarray v || isinstance_tensor v = true
  /\ (keeps_batch space -> batch_size v = batch_size obs).
Proof.
  unfold normalize_observations.
  destruct (flatten_raw_batch space g obs) as [v1|e] eqn:H1; simpl;
    [|discriminate].
  destruct (stack_list_batch g v1) as [v2|e] eqn:H2; simpl; [|discriminate].
  intros H3.
  destruct (stacked_batch _ _ _ _ _ H1 H2) as [Ha Hb].
  destruct (flatten_ranked_batch_size _ _ _ _ Ha H3) as [Hc Hd].
  split; [assumption|]. intros Hkeep. rewrite Hd, Hb by assumption.
  reflexivity.
Qed.

Lemma ensure_tensor_leading dev v t :
  isinstance_ndarray v || isinstance_tensor v = true ->
  ensure_tensor dev v = Ok t ->
  leading (t_shape t) = batch_size v.
Proof.
  destruct v as [x|x|items|a|t0]; simpl; try discriminate; intros _ H;
    inversion H; reflexivity.
Qed.

(** C4: over an observation space whose [flatten_n] keeps the number of
    observations and a model that answers [N] observations with [N]
    samples and [N]-aligned statistics, a call of [get_actions] on a
    batch of [N] observations that returns, returns an action array of
    leading dimension [N] and an info mapping that has the keys of the
    model's info map, every value of leading dimension [N]. *)
Theorem batch_dimension_preserved (self : StochasticPolicy) (obs : pyval)
    (w : world) (N : nat) (action : ndarray) (infos : dict ndarray)
    (w' : world) :
  keeps_batch (observation_space self) ->
  model_keeps_batch self ->
  batch_size obs = Some N ->
  get_actions self obs w = (Ok (action, infos), w') ->
  leading (nd_shape action) = Some N
  /\ Forall (fun v => leading (nd_shape v) = Some N) (values infos)
  /\ exists t d info w1,
       forward self (mk_PolicyInput ROLLOUT t) (set_grad_enabled false w)
       = (Ok (d, info), w1)
       /\ keys infos = keys info.
Proof.
  intros Hspace Hmodel HN H.
  apply get_actions_ok in H.
  destruct H as (v & t & d & info & w1 & s & w2 & Hn & Ht & Hf & Hs & Ha
                 & Hd & _).
  destruct (normalize_observations_size _ _ _ _ Hn) as [Hkind Hsize].
  assert (Hlead : leading (t_shape t) = Some N).
  { rewrite (ensure_tensor_leading _ _ _ Hkind Ht), Hsize by assumption.
    exact HN. }
  destruct (Hmodel _ _ _ _ _ Hf) as [Hsample Hinfo].
  repeat split.
  - rewrite (tensor_numpy_shape _ _ Ha), tensor_cpu_shape,
      (Hsample _ _ _ Hs). exact Hlead.
  - eapply dict_comprehension_values; [|exact Hd|exact Hinfo].
    intros v0 x Hv0 Hx. rewrite detach_cpu_numpy_eq in Hx.
    inversion Hx; subst x. simpl. rewrite Hv0. exact Hlead.
  - exists t, d, info, w1. split; [exact Hf|].
    eapply dict_comprehension_keys; eassumption.
Qed.

Lemma asarray_leading v a :
  asarray v = Ok a -> nd_shape a <> [] ->
  leading (nd_shape a) = batch_size v.
Proof.
  destruct v as [x|x|items|b|t]; intros H Hne.
  - inversion H; subst. contradiction Hne; reflexivity.
  - inversion H; subst. contradiction Hne; reflexivity.
  - rewrite asarray_list in H.
    destruct (mapM asarray items) as [arrays|e] eqn:Hm; simpl in H;
      [|discriminate].
    simpl. rewrite <- (mapM_length _ _ _ Hm).
    apply stack_arrays_shape, H.
  - inversion H; subst. reflexivity.
  - simpl in H. simpl. rewrite (tensor_numpy_shape _ _ H). reflexivity.
Qed.

Lemma box_keeps_batch : keeps_batch box.
Proof.
  intros v b. simpl. unfold box_flatten_n.
  destruct (asarray v) as [a|e] eqn:Ha; simpl; [|discriminate].
  destruct (nd_shape a) as [|[|n] s] eqn:Hs; try discriminate.
  intros H; inversion H; subst b. simpl.
  rewrite <- (asarray_leading _ _ Ha); rewrite Hs; [reflexivity|discriminate].
Qed.

Lemma stub_keeps_batch : model_keeps_batch stub_policy.
Proof.
  intros t w d info w1. simpl. unfold stub_forward, lift, stub_result. simpl.
  break_matches; try discriminate.
  intros H; inversion H; subst. split.
  - intros w2 s w3 Hs. inversion Hs; subst. reflexivity.
  - repeat constructor.
Qed.

Lemma batch_dimension_preserved_witness :
  let batch := PList [row 1 2 3 4; row 5 6 7 8; row 1 1 1 1] in
  let action := mk_ndarray [3; 2] [3; 7; 11; 15; 2; 2]%Z in
  let infos := [("mean"%string, action);
                ("log_std"%string, mk_ndarray [3; 2] [0; 0; 0; 0; 0; 0]%Z)] in
  batch_size batch = Some 3
  /\ get_actions stub_policy batch w0 = (Ok (action, infos), w0)
  /\ leading (nd_shape action) = Some 3
  /\ Forall (fun v => leading (nd_shape v) = Some 3) (values infos).
Proof.
  intros batch action infos.
  assert (Hrun : get_actions stub_policy batch w0 = (Ok (action, infos), w0))
    by reflexivity.
  split; [reflexivity|]. split; [exact Hrun|].
  destruct (batch_dimension_preserved stub_policy batch w0 3 action infos w0
              box_keeps_batch stub_keeps_batch eq_refl Hrun) as (H1 & H2 & _).
  split; assumption.
Defined.

(** ** The normalization rules *)

Lemma rbind_rmap {A B C} (f : A -> B) (r : result A) (k : B -> result C) :
  rbind (rmap f r) k = rbind r (fun a => k (f a)).
Proof. destruct r; reflexivity. Qed.

Lemma normalize_raw space g obs first :
  getitem0 g obs = Ok first ->
  is_raw first = true ->
  normalize_observations space g obs =
  rbind (flatten_n space obs)
    (fun b => flatten_ranked_batch space g (PArr b)).
Proof.
  intros Hfirst Hraw. unfold normalize_observations, flatten_raw_batch.
  rewrite Hfirst. simpl. unfold is_raw in Hraw. rewrite Hraw.
  destruct (flatten_n space obs); reflexivity.
Qed.

Lemma normalize_not_raw space g obs first :
  getitem0 g obs = Ok first ->
  is_raw first = false ->
  normalize_observations space g obs =
  rbind (stack_list_batch g obs) (flatten_ranked_batch space g).
Proof.
  intros Hfirst Hraw. unfold normalize_observations, flatten_raw_batch.
  rewrite Hfirst. simpl. unfold is_raw in Hraw. rewrite Hraw. reflexivity.
Qed.

Lemma flatten_ranked_flat_array space g n d data :
  flatten_ranked_batch space g (PArr (mk_ndarray [S n; d] data))
  = Ok (PArr (mk_ndarray [S n; d] data)).
Proof. reflexivity. Qed.

Lemma flatten_ranked_flat_tensor space g n d data dev attached :
  flatten_ranked_batch space g (PTensor (mk_tensor [S n; d] data dev attached))
  = Ok (PTensor (mk_tensor [S n; d] data dev attached)).
Proof. reflexivity. Qed.

(** C3: the rules of [get_actions], in the order the code applies them.
    A batch whose first element is neither an ndarray nor a tensor is
    flattened by the observation space's [flatten_n] (and is the result
    as it is when [flatten_n] returned a batch of flat rows); a plain
    list whose first element is an ndarray, or a tensor, is stacked
    first, and the rank check sees the stacked batch; an ndarray or
    tensor batch of flat rows passes through unchanged. *)
Theorem normalization_precedence (space : Space) (g : bool) :
  (forall obs first,
     getitem0 g obs = Ok first -> is_raw first = true ->
     normalize_observations space g obs =
     rbind (flatten_n space obs)
       (fun b => flatten_ranked_batch space g (PArr b))
     /\ forall b n d,
          flatten_n space obs = Ok b -> nd_shape b = [S n; d] ->
          normalize_observations space g obs = Ok (PArr b))
  /\ (forall items first,
        getitem0 g (PList items) = Ok first ->
        isinstance_ndarray first = true ->
        normalize_observations space g (PList items) =
        rbind (np_stack items)
          (fun a => flatten_ranked_batch space g (PArr a)))
  /\ (forall items first,
        getitem0 g (PList items) = Ok first ->
        isinstance_tensor first = true ->
        normalize_observations space g (PList items) =
        rbind (torch_stack g items)
          (fun t => flatten_ranked_batch space g (PTensor t)))
  /\ (forall n d data,
        normalize_observations space g (PArr (mk_ndarray [S n; d] data))
        = Ok (PArr (mk_ndarray [S n; d] data)))
  /\ (forall n d data dev attached,
        normalize_observations space g
          (PTensor (mk_tensor [S n; d] data dev attached))
        = Ok (PTensor (mk_tensor [S n; d] data dev attached))).
Proof.
  split; [|split; [|split; [|split]]].
  - intros obs first Hfirst Hraw. split.
    + eapply normalize_raw; eassumption.
    + intros b n d Hb Hshape.
      rewrite (normalize_raw space _ _ _ Hfirst Hraw), Hb. simpl.
      destruct b as [shape data]. simpl in Hshape. subst shape. reflexivity.
  - intros items first Hfirst Harr.
    rewrite (normalize_not_raw space _ _ _ Hfirst)
      by (unfold is_raw; rewrite Harr; reflexivity).
    simpl in *. rewrite Hfirst. simpl. rewrite Harr. apply rbind_rmap.
  - intros items first Hfirst Hten.
    rewrite (normalize_not_raw space _ _ _ Hfirst)
      by (unfold is_raw; rewrite Hten; apply andb_false_r).
    simpl in *. rewrite Hfirst. simpl.
    destruct first; simpl in *; try discriminate. apply rbind_rmap.
  - reflexivity.
  - reflexivity.
Qed.

Lemma normalization_precedence_witness :
  let raw_batch := PList [row 1 2 3 4; row 5 6 7 8] in
  let flat := mk_ndarray [2; 4] [1; 2; 3; 4; 5; 6; 7; 8]%Z in
  let arrays := [PArr (arr22 1 2 3 4); PArr (arr22 5 6 7 8)] in
  (getitem0 true raw_batch = Ok (row 1 2 3 4)
   /\ is_raw (row 1 2 3 4) = true
   /\ flatten_n box raw_batch = Ok flat
   /\ normalize_observations box true raw_batch = Ok (PArr flat))
  /\ (getitem0 true (PList arrays) = Ok (PArr (arr22 1 2 3 4))
      /\ normalize_observations box true (PList arrays) =
         rbind (np_stack arrays)
           (fun a => flatten_ranked_batch box true (PArr a)))
  /\ normalize_observations box true (PArr flat) = Ok (PArr flat).
Proof.
  intros raw_batch flat arrays.
  destruct (normalization_precedence box true) as (H1 & H2 & _ & H4 & _).
  split; [|split].
  - split; [reflexivity|]. split; [reflexivity|]. split; [reflexivity|].
    exact (proj2 (H1 raw_batch (row 1 2 3 4) eq_refl eq_refl)
             flat 1 4 eq_refl eq_refl).
  - split; [reflexivity|].
    exact (H2 arrays (PArr (arr22 1 2 3 4)) eq_refl eq_refl).
  - exact (H4 1 4 [1; 2; 3; 4; 5; 6; 7; 8]%Z).
Defined.

Lemma np_stack_first_array a rest b :
  np_stack (PArr a :: rest) = Ok b ->
  nd_shape b = S (length rest) :: nd_shape a.
Proof.
  unfold np_stack. simpl.
  destruct (mapM asarray rest) as [others|e] eqn:Hm; simpl; [|discriminate].
  destruct (forallb _ others); intros H; inversion H; simpl.
  rewrite (mapM_length _ _ _ Hm). reflexivity.
Qed.

Lemma torch_stack_first_tensor g t rest b :
  torch_stack g (PTensor t :: rest) = Ok b ->
  t_shape b = S (length rest) :: t_shape t.
Proof.
  unfold torch_stack. simpl.
  destruct (mapM as_tensor_item rest) as [others|e] eqn:Hm; simpl;
    [|discriminate].
  destruct (forallb _ others); intros H; inversion H; simpl.
  rewrite (mapM_length _ _ _ Hm). reflexivity.
Qed.

Lemma flatten_ranked_deep_array space g n s data :
  1 < length s ->
  flatten_ranked_batch space g (PArr (mk_ndarray (S n :: s) data))
  = rmap PArr (flatten_n space (PArr (mk_ndarray (S n :: s) data))).
Proof.
  intros Hs. unfold flatten_ranked_batch. simpl. unfold nd_getitem0. simpl.
  destruct s as [|m s']; [simpl in Hs; lia|]. simpl.
  destruct (length s') eqn:Hl; [simpl in Hs; lia|]. reflexivity.
Qed.

Lemma flatten_ranked_deep_tensor space g n s data dev attached :
  1 < length s ->
  flatten_ranked_batch space g
    (PTensor (mk_tensor (S n :: s) data dev attached))
  = rmap PTensor
      (torch_flatten_start1 g (mk_tensor (S n :: s) data dev attached)).
Proof.
  intros Hs. unfold flatten_ranked_batch. simpl. unfold tensor_getitem0. simpl.
  destruct s as [|m s']; [simpl in Hs; lia|]. simpl.
  destruct (length s') eqn:Hl; [simpl in Hs; lia|]. reflexivity.
Qed.

(** C2, as the code has it: an ndarray of rank above the flat rank is
    flattened by the observation space, by [flatten] for a single
    observation (the transform a raw observation gets) and by
    [flatten_n] for a batch, given as an ndarray or as a list of ndarrays
    that is stacked first; a torch tensor of rank above the flat rank is
    flattened by torch itself, by [torch.flatten] for a single
    observation and by [torch.flatten(start_dim=1)] for a batch, whatever
    the observation space is. *)
Theorem rank_based_flattening (space : Space) (g : bool) :
  (forall a, 1 < length (nd_shape a) ->
     normalize_observation space g (PArr a)
     = rmap PArr (flatten space (PArr a)))
  /\ (forall x, is_raw x = true ->
        normalize_observation space g x = rmap PArr (flatten space x))
  /\ (forall n s data, 1 < length s ->
        normalize_observations space g (PArr (mk_ndarray (S n :: s) data))
        = rmap PArr (flatten_n space (PArr (mk_ndarray (S n :: s) data))))
  /\ (forall a rest, 1 < length (nd_shape a) ->
        normalize_observations space g (PList (PArr a :: rest))
        = rbind (np_stack (PArr a :: rest))
            (fun b => rmap PArr (flatten_n space (PArr b))))
  /\ (forall t, 1 < length (t_shape t) ->
        normalize_observation space g (PTensor t)
        = Ok (PTensor (torch_flatten g t)))
  /\ (forall n s data dev attached, 1 < length s ->
        normalize_observations space g
          (PTensor (mk_tensor (S n :: s) data dev attached))
        = rmap PTensor
            (torch_flatten_start1 g
               (mk_tensor (S n :: s) data dev attached))).
Proof.
  split; [|split; [|split; [|split; [|split]]]].
  - intros a Ha. unfold normalize_observation. simpl.
    apply Nat.ltb_lt in Ha. rewrite Ha. reflexivity.
  - intros x Hraw. unfold normalize_observation. unfold is_raw in Hraw.
    rewrite Hraw. reflexivity.
  - intros n s data Hs.
    destruct s as [|m s']; [simpl in Hs; lia|].
    rewrite (normalize_not_raw space g _
               (PArr (mk_ndarray (m :: s')
                        (firstn (numel (m :: s')) data))))
      by reflexivity.
    simpl rbind. apply flatten_ranked_deep_array, Hs.
  - intros a rest Ha.
    rewrite (normalize_not_raw space g _ (PArr a)) by reflexivity.
    simpl stack_list_batch. rewrite rbind_rmap.
    destruct (np_stack (PArr a :: rest)) as [b|e] eqn:Hb; [|reflexivity].
    simpl. destruct b as [shape data].
    pose proof (np_stack_first_array _ _ _ Hb) as Hshape. simpl in Hshape.
    subst shape. apply flatten_ranked_deep_array, Ha.
  - intros t Ht. unfold normalize_observation. simpl.
    apply Nat.ltb_lt in Ht. rewrite Ht. reflexivity.
  - intros n s data dev attached Hs.
    rewrite (normalize_not_raw space g _
               (PTensor (mk_tensor s (firstn (numel s) data) dev
                           (attached && g))))
      by reflexivity.
    simpl rbind. apply flatten_ranked_deep_tensor, Hs.
Qed.

Lemma rank_based_flattening_witness :
  1 < length (nd_shape (arr22 1 2 3 4))
  /\ normalize_observation box true (PArr (arr22 1 2 3 4))
     = Ok (PArr (arr4 1 2 3 4))
  /\ 1 < length (t_shape (tensor22 (CUDA 0) false))
  /\ normalize_observation box true (PTensor (tensor22 (CUDA 0) false))
     = Ok (PTensor (mk_tensor [4] [1; 2; 3; 4]%Z (CUDA 0) false)).
Proof.
  destruct (rank_based_flattening box true) as (H1 & _ & _ & _ & H5 & _).
  assert (Ha : 1 < length (nd_shape (arr22 1 2 3 4))) by (simpl; lia).
  assert (Ht : 1 < length (t_shape (tensor22 (CUDA 0) false)))
    by (simpl; lia).
  split; [exact Ha|]. split; [exact (H1 _ Ha)|].
  split; [exact Ht|]. exact (H5 _ Ht).
Defined.

(** C2 as stated fails for tensors: a tensor of rank 2 held on an
    accelerator is flattened by [get_action] with [torch.flatten], where
    the box space's [flatten], which goes through numpy, would raise. *)
Lemma tensor_flattening_counterexample :
  ~ (forall space g t,
       1 < length (t_shape t) ->
       normalize_observation space g (PTensor t)
       = rmap PArr (flatten space (PTensor t))).
Proof.
  intros H.
  specialize (H box true (tensor22 (CUDA 0) false)).
  assert (Ht : 1 < length (t_shape (tensor22 (CUDA 0) false)))
    by (simpl; lia).
  specialize (H Ht). discriminate H.
Qed.

(** ** What decides the normalization branch *)

Lemma run_steps_app space g s1 s2 v :
  run_steps space g (s1 ++ s2) v
  = rbind (run_steps space g s1 v) (run_steps space g s2).
Proof.
  revert v. induction s1 as [|s rest IH]; intros v; simpl; [reflexivity|].
  destruct (run_step space g s v); simpl; [apply IH|reflexivity].
Qed.

Lemma rbind_ok {A} (r : result A) : rbind r Ok = r.
Proof. destruct r; reflexivity. Qed.

Lemma raw_steps_run space g obs v1 :
  flatten_raw_batch space g obs = Ok v1 ->
  run_steps space g (raw_steps g obs) obs = Ok v1.
Proof.
  unfold flatten_raw_batch, raw_steps, is_raw.
  destruct (getitem0 g obs) as [first|e]; simpl; [|discriminate].
  destruct (negb (isinstance_ndarray first) && negb (isinstance_tensor first));
    simpl; [|trivial].
  rewrite rbind_ok. trivial.
Qed.

Lemma stack_steps_run space g v1 v2 :
  stack_list_batch g v1 = Ok v2 ->
  run_steps space g (stack_steps g v1) v1 = Ok v2.
Proof.
  unfold stack_list_batch, stack_steps.
  destruct v1 as [x|x|items|a|t]; simpl; trivial.
  destruct items as [|first rest]; simpl; [discriminate|].
  destruct (isinstance_ndarray first); simpl; [rewrite rbind_ok; trivial|].
  destruct (isinstance_tensor first); simpl; [rewrite rbind_ok; trivial|].
  trivial.
Qed.

Lemma ranked_steps_run space g v2 v3 :
  flatten_ranked_batch space g v2 = Ok v3 ->
  run_steps space g (ranked_steps g v2) v2 = Ok v3.
Proof.
  unfold flatten_ranked_batch, ranked_steps.
  destruct (getitem0 g v2) as [first|e]; simpl; [|discriminate].
  destruct (isinstance_ndarray first && (1 <? shape_len first)); simpl;
    [rewrite rbind_ok; trivial|].
  destruct (isinstance_tensor first && (1 <? shape_len first)); simpl;
    [rewrite rbind_ok; trivial|].
  trivial.
Qed.

(** The recorded steps are the ones that produce the normalized batch. *)
Lemma normalization_steps_run space g obs v :
  normalize_observations space g obs = Ok v ->
  run_steps space g (normalization_steps space g obs) obs = Ok v.
Proof.
  unfold normalize_observations, normalization_steps.
  destruct (flatten_raw_batch space g obs) as [v1|e] eqn:H1; simpl;
    [|discriminate].
  destruct (stack_list_batch g v1) as [v2|e] eqn:H2; simpl; [|discriminate].
  intros H3.
  rewrite run_steps_app, (raw_steps_run _ _ _ _ H1). simpl.
  rewrite run_steps_app, (stack_steps_run space _ _ _ H2). simpl.
  apply ranked_steps_run, H3.
Qed.

Lemma ranked_steps_array g c n s0 :
  nd_shape c = S n :: s0 ->
  ranked_steps g (PArr c) = if 1 <? length s0 then [FlattenRanked] else [].
Proof.
  intros Hc. unfold ranked_steps. simpl. unfold nd_getitem0. rewrite Hc.
  destruct s0 as [|m s']; [reflexivity|]. simpl.
  destruct (length s'); reflexivity.
Qed.

Lemma ranked_steps_tensor g c n s0 :
  t_shape c = S n :: s0 ->
  ranked_steps g (PTensor c) = if 1 <? length s0 then [FlattenTensor] else [].
Proof.
  intros Hc. unfold ranked_steps. simpl. unfold tensor_getitem0. rewrite Hc.
  simpl. destruct s0 as [|m s']; [reflexivity|]. simpl.
  destruct (length s'); reflexivity.
Qed.

Lemma ranked_steps_flat_rows g a :
  length (nd_shape a) <= 2 -> ranked_steps g (PArr a) = [].
Proof.
  intros Hlen. unfold ranked_steps. simpl. unfold nd_getitem0.
  destruct (nd_shape a) as [|[|n] [|m [|k s]]]; simpl in *; try reflexivity.
  lia.
Qed.

Lemma nd_getitem0_shape a first :
  nd_getitem0 a = Ok first ->
  exists n, nd_shape a = S n :: match first with
                               | PArr b => nd_shape b
                               | _ => []
                               end
            /\ (isinstance_tensor first = false).
Proof.
  unfold nd_getitem0.
  destruct (nd_shape a) as [|[|n] [|m s]]; intros H; inversion H; subst;
    exists n; split; reflexivity.
Qed.

Lemma tensor_getitem0_shape g t first :
  tensor_getitem0 g t = Ok first ->
  exists n t0, first = PTensor t0 /\ t_shape t = S n :: t_shape t0.
Proof.
  unfold tensor_getitem0.
  destruct (t_shape t) as [|[|n] s]; intros H; inversion H; subst.
  eexists n, _. split; reflexivity.
Qed.

Lemma steps_of_raw_first space g b f v :
  getitem0 g b = Ok f ->
  is_raw f = true ->
  flat_rows space b ->
  normalize_observations space g b = Ok v ->
  normalization_steps space g b = [FlattenRaw].
Proof.
  intros Hf Hraw Hflat Hn.
  unfold normalization_steps, raw_steps. rewrite Hf, Hraw.
  unfold normalize_observations in Hn. unfold flatten_raw_batch in *.
  rewrite Hf in *. simpl in *. unfold is_raw in Hraw. rewrite Hraw in *.
  destruct (flatten_n space b) as [a|e] eqn:Hb; simpl in *; [|discriminate].
  rewrite (ranked_steps_flat_rows g a (Hflat a Hb)). reflexivity.
Qed.

Lemma steps_of_array_first space g b a0 v :
  getitem0 g b = Ok (PArr a0) ->
  normalize_observations space g b = Ok v ->
  normalization_steps space g b =
  expected_steps (isinstance_list b) TNdarray (length (nd_shape a0)).
Proof.
  intros Hf Hn.
  unfold normalization_steps, raw_steps. rewrite Hf. simpl.
  unfold normalize_observations in Hn. unfold flatten_raw_batch in *.
  rewrite Hf in *. simpl in *.
  destruct b as [x|x|items|a|t]; simpl in Hf; try discriminate.
  - destruct items as [|first rest]; [discriminate|].
    inversion Hf; subst first. simpl in *.
    destruct (np_stack (PArr a0 :: rest)) as [c|e] eqn:Hc; simpl in *;
      [|discriminate].
    rewrite (ranked_steps_array g c _ _ (np_stack_first_array _ _ _ Hc)).
    reflexivity.
  - simpl in *. destruct (nd_getitem0_shape _ _ Hf) as (n & Hshape & _).
    rewrite (ranked_steps_array g a _ _ Hshape). reflexivity.
  - destruct (tensor_getitem0_shape _ _ _ Hf) as (n & t0 & Habs & _).
    discriminate Habs.
Qed.

Lemma steps_of_tensor_first space g b t0 v :
  getitem0 g b = Ok (PTensor t0) ->
  normalize_observations space g b = Ok v ->
  normalization_steps space g b =
  expected_steps (isinstance_list b) TTensor (length (t_shape t0)).
Proof.
  intros Hf Hn.
  unfold normalization_steps, raw_steps. rewrite Hf. simpl.
  unfold normalize_observations in Hn. unfold flatten_raw_batch in *.
  rewrite Hf in *. simpl in *.
  destruct b as [x|x|items|a|t]; simpl in Hf; try discriminate.
  - destruct items as [|first rest]; [discriminate|].
    inversion Hf; subst first. simpl in *.
    destruct (torch_stack g (PTensor t0 :: rest)) as [c|e] eqn:Hc;
      simpl in *; [|discriminate].
    rewrite (ranked_steps_tensor g c _ _ (torch_stack_first_tensor _ _ _ _ Hc)).
    reflexivity.
  - destruct (nd_getitem0_shape _ _ Hf) as (n & _ & Habs). discriminate Habs.
  - simpl in *.
    destruct (tensor_getitem0_shape _ _ _ Hf) as (n & t1 & Heq & Hshape).
    inversion Heq; subst t1.
    rewrite (ranked_steps_tensor g t _ _ Hshape). reflexivity.
Qed.

Lemma steps_determined space g b f v :
  getitem0 g b = Ok f ->
  flat_rows space b ->
  normalize_observations space g b = Ok v ->
  normalization_steps space g b =
  expected_steps (isinstance_list b) (type_of f) (shape_len f).
Proof.
  intros Hf Hflat Hn. destruct f as [x|x|items|a0|t0]; simpl.
  - eapply steps_of_raw_first; eauto.
  - eapply steps_of_raw_first; eauto.
  - eapply steps_of_raw_first; eauto.
  - eapply steps_of_array_first; eauto.
  - eapply steps_of_tensor_first; eauto.
Qed.

(** C7, as the code has it: which normalization steps [get_actions]
    applies to a batch is decided by whether the batch is a plain list
    and by the type and the rank of its first element.  For two batches
    that are both plain lists or both not, whose first elements have the
    same type and rank, over a space whose [flatten_n] returns flat rows,
    and both of which normalization accepts, the same steps are applied,
    whatever the other elements are; the steps are the ones
    [expected_steps] lists, and running them yields the normalized
    batch. *)
Theorem first_element_decides (space : Space) (g : bool) (b1 b2 f1 f2 : pyval)
    (v1 v2 : pyval) :
  isinstance_list b1 = isinstance_list b2 ->
  getitem0 g b1 = Ok f1 ->
  getitem0 g b2 = Ok f2 ->
  type_of f1 = type_of f2 ->
  shape_len f1 = shape_len f2 ->
  flat_rows space b1 ->
  flat_rows space b2 ->
  normalize_observations space g b1 = Ok v1 ->
  normalize_observations space g b2 = Ok v2 ->
  normalization_steps space g b1 = normalization_steps space g b2
  /\ normalization_steps space g b1
     = expected_steps (isinstance_list b1) (type_of f1) (shape_len f1)
  /\ run_steps space g (normalization_steps space g b1) b1 = Ok v1
  /\ run_steps space g (normalization_steps space g b2) b2 = Ok v2.
Proof.
  intros Hlist Hf1 Hf2 Htype Hrank Hflat1 Hflat2 Hn1 Hn2.
  pose proof (steps_determined space g b1 f1 v1 Hf1 Hflat1 Hn1) as H1.
  pose proof (steps_determined space g b2 f2 v2 Hf2 Hflat2 Hn2) as H2.
  repeat split.
  - rewrite H1, H2, Hlist, Htype, Hrank. reflexivity.
  - exact H1.
  - apply normalization_steps_run, Hn1.
  - apply normalization_steps_run, Hn2.
Qed.

(** C7 as stated fails: a one-element list of a flat ndarray and a
    two-dimensional ndarray with one row have first elements of the same
    type and rank, yet the list is stacked and the ndarray passes
    through, because line 69 looks at the type of the batch itself. *)
Lemma first_element_counterexample :
  ~ (forall space g b1 b2 f1 f2,
       getitem0 g b1 = Ok f1 ->
       getitem0 g b2 = Ok f2 ->
       type_of f1 = type_of f2 ->
       shape_len f1 = shape_len f2 ->
       normalization_steps space g b1 = normalization_steps space g b2).
Proof.
  intros H.
  specialize (H box true (PList [PArr (arr4 1 2 3 4)])
                (PArr (mk_ndarray [1; 4] [1; 2; 3; 4]%Z))
                (PArr (arr4 1 2 3 4)) (PArr (arr4 1 2 3 4))
                eq_refl eq_refl eq_refl eq_refl).
  discriminate H.
Qed.

Lemma box_flat_rows obs : flat_rows box obs.
Proof.
  intros b. simpl. unfold box_flatten_n.
  destruct (asarray obs) as [a|e]; simpl; [|discriminate].
  destruct (nd_shape a) as [|[|n] s]; try discriminate.
  intros H; inversion H. simpl. lia.
Qed.

Lemma first_element_decides_witness :
  let b1 := PList [row 1 2 3 4; PArr (arr4 5 6 7 8)] in
  let b2 := PList [row 9 9 9 9;
                   PTensor (mk_tensor [4] [1; 1; 1; 1]%Z CPU false);
                   row 2 2 2 2] in
  let v1 := PArr (mk_ndarray [2; 4] [1; 2; 3; 4; 5; 6; 7; 8]%Z) in
  let v2 := PArr (mk_ndarray [3; 4]
                    [9; 9; 9; 9; 1; 1; 1; 1; 2; 2; 2; 2]%Z) in
  isinstance_list b1 = isinstance_list b2
  /\ getitem0 true b1 = Ok (row 1 2 3 4)
  /\ getitem0 true b2 = Ok (row 9 9 9 9)
  /\ type_of (row 1 2 3 4) = type_of (row 9 9 9 9)
  /\ shape_len (row 1 2 3 4) = shape_len (row 9 9 9 9)
  /\ normalize_observations box true b1 = Ok v1
  /\ normalize_observations box true b2 = Ok v2
  /\ normalization_steps box true b1 = normalization_steps box true b2.
Proof.
  intros b1 b2 v1 v2.
  assert (Hn1 : normalize_observations box true b1 = Ok v1) by reflexivity.
  assert (Hn2 : normalize_observations box true b2 = Ok v2) by reflexivity.
  repeat (split; [reflexivity|]).
  exact (proj1 (first_element_decides box true b1 b2
                  (row 1 2 3 4) (row 9 9 9 9) v1 v2
                  eq_refl eq_refl eq_refl eq_refl eq_refl
                  (box_flat_rows b1) (box_flat_rows b2) Hn1 Hn2)).
Defined.

(** ** Single observations are batches of one *)

Lemma rollout_ext self v v' w :
  ensure_tensor (global_device w) v = ensure_tensor (global_device w) v' ->
  rollout self v w = rollout self v' w.
Proof. intros H. rewrite !rollout_eq, H. reflexivity. Qed.

Lemma np_stack_singleton a : np_stack [PArr a] = Ok (nd_unsqueeze0 a).
Proof.
  unfold np_stack, nd_unsqueeze0. simpl. rewrite app_nil_r. reflexivity.
Qed.

Lemma torch_stack_singleton g t :
  torch_stack g [PTensor t]
  = Ok (mk_tensor (1 :: t_shape t) (t_data t) (t_device t)
          (t_requires_grad t && g)).
Proof.
  unfold torch_stack. simpl. rewrite app_nil_r, orb_false_r. reflexivity.
Qed.

Lemma stack_list_one_array g a :
  stack_list_batch g (PList [PArr a]) = Ok (PArr (nd_unsqueeze0 a)).
Proof.
  unfold stack_list_batch. cbn [getitem0 rbind isinstance_ndarray].
  rewrite np_stack_singleton. reflexivity.
Qed.

Lemma stack_list_one_tensor g t :
  stack_list_batch g (PList [PTensor t])
  = Ok (PTensor (mk_tensor (1 :: t_shape t) (t_data t) (t_device t)
                   (t_requires_grad t && g))).
Proof.
  unfold stack_list_batch.
  cbn [getitem0 rbind isinstance_ndarray isinstance_tensor].
  rewrite torch_stack_singleton. reflexivity.
Qed.

Lemma flat_array_batch_passes space g c :
  length (nd_shape c) <= 1 ->
  flatten_ranked_batch space g (PArr (nd_unsqueeze0 c))
  = Ok (PArr (nd_unsqueeze0 c)).
Proof.
  intros Hc. unfold flatten_ranked_batch. simpl. unfold nd_getitem0. simpl.
  destruct (nd_shape c) as [|m [|k s]]; simpl in *; try reflexivity. lia.
Qed.

Lemma flat_tensor_batch_passes space g s data dev attached :
  length s <= 1 ->
  normalize_observations space g (PTensor (mk_tensor (1 :: s) data dev attached))
  = Ok (PTensor (mk_tensor (1 :: s) data dev attached)).
Proof.
  intros Hs. unfold normalize_observations, flatten_raw_batch. simpl.
  unfold flatten_ranked_batch. simpl.
  destruct s as [|m [|k s]]; simpl in *; try reflexivity. lia.
Qed.

(** What [get_action] hands to [get_actions], and what [get_actions]
    makes of the one-element list, for an observation whose flat form
    [c] comes from the observation space. *)
Lemma batch_of_flattened space dev c :
  length (nd_shape c) <= 1 ->
  exists t,
    ensure_tensor dev (PArr c) = Ok t
    /\ ensure_tensor dev (PArr (nd_unsqueeze0 c))
       = Ok (tensor_unsqueeze0 false t)
    /\ normalize_observations space false (PTensor (tensor_unsqueeze0 false t))
       = Ok (PTensor (tensor_unsqueeze0 false t)).
Proof.
  intros Hc. exists (mk_tensor (nd_shape c) (nd_data c) dev false).
  split; [reflexivity|]. split; [reflexivity|].
  apply flat_tensor_batch_passes, Hc.
Qed.

Lemma batch_of_one_raw space g dev x :
  is_raw x = true ->
  coherent space x (PList [x]) ->
  batch_of_one_spec space g dev x.
Proof.
  intros Hraw [Hco Hflat]. unfold batch_of_one_spec.
  assert (Hsingle : normalize_observation space g x
                    = rmap PArr (flatten space x)).
  { unfold normalize_observation. unfold is_raw in Hraw. rewrite Hraw.
    reflexivity. }
  rewrite Hsingle.
  rewrite (normalize_raw space g (PList [x]) x eq_refl Hraw), Hco.
  destruct (flatten space x) as [c|e] eqn:Hc; simpl; [|reflexivity].
  specialize (Hflat c eq_refl).
  destruct (batch_of_flattened space dev c Hflat) as (t & H1 & H2 & H3).
  exists t, (PArr (nd_unsqueeze0 c)).
  rewrite flat_array_batch_passes by assumption. auto.
Qed.

Lemma batch_of_one_flat_array space g dev a :
  length (nd_shape a) <= 1 ->
  batch_of_one_spec space g dev (PArr a).
Proof.
  intros Ha. unfold batch_of_one_spec.
  assert (Hsingle : normalize_observation space g (PArr a) = Ok (PArr a)).
  { unfold normalize_observation. simpl.
    destruct (1 <? length (nd_shape a)) eqn:Hlt; [|reflexivity].
    apply Nat.ltb_lt in Hlt. lia. }
  rewrite Hsingle.
  rewrite (normalize_not_raw space g (PList [PArr a]) (PArr a) eq_refl eq_refl).
  rewrite stack_list_one_array. simpl.
  destruct (batch_of_flattened space dev a Ha) as (t & H1 & H2 & H3).
  exists t, (PArr (nd_unsqueeze0 a)).
  rewrite flat_array_batch_passes by assumption. auto.
Qed.

Lemma batch_of_one_deep_array space g dev a :
  1 < length (nd_shape a) ->
  coherent space (PArr a) (PArr (nd_unsqueeze0 a)) ->
  batch_of_one_spec space g dev (PArr a).
Proof.
  intros Ha [Hco Hflat]. unfold batch_of_one_spec.
  assert (Hsingle : normalize_observation space g (PArr a)
                    = rmap PArr (flatten space (PArr a))).
  { unfold normalize_observation. simpl.
    apply Nat.ltb_lt in Ha. rewrite Ha. reflexivity. }
  assert (Hbatch : normalize_observations space g (PList [PArr a])
                   = rmap PArr (rmap nd_unsqueeze0 (flatten space (PArr a)))).
  { rewrite (normalize_not_raw space g (PList [PArr a]) (PArr a)
               eq_refl eq_refl).
    rewrite stack_list_one_array. simpl rbind.
    unfold nd_unsqueeze0 in *.
    rewrite flatten_ranked_deep_array by assumption.
    rewrite Hco. reflexivity. }
  rewrite Hsingle, Hbatch.
  destruct (flatten space (PArr a)) as [c|e] eqn:Hc; simpl; [|reflexivity].
  specialize (Hflat c eq_refl).
  destruct (batch_of_flattened space dev c Hflat) as (t & H1 & H2 & H3).
  exists t, (PArr (nd_unsqueeze0 c)). auto.
Qed.

Lemma batch_of_one_flat_tensor space g dev t :
  length (t_shape t) <= 1 ->
  t_requires_grad t && g = false ->
  batch_of_one_spec space g dev (PTensor t).
Proof.
  intros Ht Hplain. unfold batch_of_one_spec.
  assert (Hsingle : normalize_observation space g (PTensor t)
                    = Ok (PTensor t)).
  { unfold normalize_observation. simpl.
    destruct (1 <? length (t_shape t)) eqn:Hlt; [|reflexivity].
    apply Nat.ltb_lt in Hlt. lia. }
  rewrite Hsingle.
  rewrite (normalize_not_raw space g (PList [PTensor t]) (PTensor t)
             eq_refl eq_refl).
  rewrite stack_list_one_tensor, Hplain. simpl rbind.
  exists t, (PTensor (tensor_unsqueeze0 false t)).
  unfold tensor_unsqueeze0. rewrite andb_false_r.
  split; [reflexivity|]. split; [|split; [reflexivity|]].
  - unfold flatten_ranked_batch. simpl.
    destruct (t_shape t) as [|m [|k s]]; simpl in *; try reflexivity. lia.
  - apply flat_tensor_batch_passes, Ht.
Qed.

Lemma batch_of_one_deep_tensor space g dev t :
  1 < length (t_shape t) ->
  t_requires_grad t && g = false ->
  batch_of_one_spec space g dev (PTensor t).
Proof.
  intros Ht Hplain. unfold batch_of_one_spec.
  assert (Hsingle : normalize_observation space g (PTensor t)
                    = Ok (PTensor (torch_flatten g t))).
  { unfold normalize_observation. simpl.
    apply Nat.ltb_lt in Ht. rewrite Ht. reflexivity. }
  rewrite Hsingle.
  rewrite (normalize_not_raw space g (PList [PTensor t]) (PTensor t)
             eq_refl eq_refl).
  rewrite stack_list_one_tensor, Hplain. simpl rbind.
  rewrite flatten_ranked_deep_tensor by assumption.
  exists (torch_flatten g t).
  destruct t as [shape data d attached]. simpl in *.
  destruct shape as [|m [|k s]]; simpl in Ht; try lia.
  unfold torch_flatten, torch_flatten_start1, tensor_unsqueeze0. simpl.
  rewrite Hplain. simpl.
  eexists. split; [reflexivity|]. split; [reflexivity|].
  split; [reflexivity|].
  apply flat_tensor_batch_passes. simpl. lia.
Qed.

Lemma batch_of_one_normalization space g dev x :
  supported space g x -> batch_of_one_spec space g dev x.
Proof.
  destruct x as [y|y|items|a|t]; simpl; intros Hs.
  - apply batch_of_one_raw; [reflexivity|assumption].
  - apply batch_of_one_raw; [reflexivity|assumption].
  - apply batch_of_one_raw; [reflexivity|assumption].
  - destruct (1 <? length (nd_shape a)) eqn:Hlt.
    + apply Nat.ltb_lt in Hlt. apply batch_of_one_deep_array; assumption.
    + apply Nat.ltb_ge in Hlt. apply batch_of_one_flat_array; assumption.
  - destruct (1 <? length (t_shape t)) eqn:Hlt.
    + apply Nat.ltb_lt in Hlt. apply batch_of_one_deep_tensor; assumption.
    + apply Nat.ltb_ge in Hlt. apply batch_of_one_flat_tensor; assumption.
Qed.

(** C1: the batch/unbatch law.  For an observation in one of the
    supported encodings -- raw, or an ndarray of any rank, over an
    observation space whose [flatten_n] of the batch of one is the
    [flatten] of its element; or a tensor of any rank that carries plain
    data -- [get_action] returns what [get_actions] returns on the
    one-element list, indexed at 0: the same action, the same info
    entries, the same exception if one is raised, and the same final
    state. *)
Theorem get_action_is_batch_of_one (self : StochasticPolicy) (x : pyval)
    (w : world) :
  supported (observation_space self) (grad_enabled w) x ->
  get_action self x w = unbatch (get_actions self (PList [x]) w).
Proof.
  intros Hs.
  pose proof (batch_of_one_normalization (observation_space self)
                (grad_enabled w) (global_device w) x Hs) as H.
  unfold batch_of_one_spec in H.
  rewrite get_action_eq, (get_actions_eq self (PList [x]) w).
  destruct (normalize_observation _ _ x) as [v|e].
  - destruct H as (t & vb & Ht & Hvb & Hu & Hpass).
    rewrite Ht, Hvb. cbv zeta. rewrite get_actions_eq.
    rewrite grad_enabled_set, Hpass, !with_no_grad_eq.
    rewrite set_grad_enabled_twice.
    rewrite (rollout_ext self vb (PTensor (tensor_unsqueeze0 false t)))
      by (rewrite global_device_set; exact Hu).
    reflexivity.
  - rewrite H. reflexivity.
Qed.

Lemma get_action_is_batch_of_one_witness :
  let x := PArr (arr22 1 2 3 4) in
  let info := [("mean"%string, PArr (mk_ndarray [2] [3; 7]%Z));
               ("log_std"%string, PArr (mk_ndarray [2] [0; 0]%Z))] in
  supported box true x
  /\ get_action stub_policy x w0
     = (Ok (PArr (mk_ndarray [2] [3; 7]%Z), info), w0)
  /\ get_action stub_policy x w0
     = unbatch (get_actions stub_policy (PList [x]) w0).
Proof.
  intros x info.
  assert (Hs : supported box true x).
  { simpl. split; [reflexivity|].
    intros a H. inversion H. simpl. lia. }
  split; [exact Hs|]. split; [reflexivity|].
  exact (get_action_is_batch_of_one stub_policy x w0 Hs).
Defined.

(** ** The tensor the model receives *)

Lemma get_actions_same_normal self obs1 obs2 w :
  normalize_observations (observation_space self) (grad_enabled w) obs1
  = normalize_observations (observation_space self) (grad_enabled w) obs2 ->
  get_actions self obs1 w = get_actions self obs2 w.
Proof. intros H. rewrite !get_actions_eq, H. reflexivity. Qed.

Lemma get_actions_via_model_input self obs w :
  get_actions self obs w =
  match model_input (observation_space self) (grad_enabled w)
          (global_device w) obs with
  | Err e => (Err e, w)
  | Ok t => with_no_grad (rollout self (PTensor t)) w
  end.
Proof.
  rewrite get_actions_eq. unfold model_input.
  destruct (normalize_observations _ _ _) as [v|e]; simpl; [|reflexivity].
  destruct (ensure_tensor (global_device w) v) as [t|e] eqn:Ht.
  - rewrite !with_no_grad_eq.
    rewrite (rollout_ext self v (PTensor t)); [reflexivity|].
    rewrite global_device_set. exact Ht.
  - rewrite with_no_grad_eq, rollout_eq, global_device_set, Ht. simpl.
    rewrite set_grad_enabled_twice, set_grad_enabled_same. reflexivity.
Qed.

Lemma flatten_ranked_array_kind space g b v :
  flatten_ranked_batch space g (PArr b) = Ok v -> isinstance_ndarray v = true.
Proof.
  unfold flatten_ranked_batch. simpl.
  destruct (nd_getitem0 b) as [first|e] eqn:Hfirst; simpl; [|discriminate].
  destruct (isinstance_ndarray first && (1 <? shape_len first)).
  - destruct (flatten_n space (PArr b)); simpl; intros H; inversion H.
    reflexivity.
  - destruct (nd_getitem0_shape _ _ Hfirst) as (n & _ & Hnot).
    rewrite Hnot. simpl. intros H; inversion H. reflexivity.
Qed.

Lemma torch_flatten_start1_keeps g t t' :
  torch_flatten_start1 g t = Ok t' ->
  t_device t' = t_device t /\ t_data t' = t_data t.
Proof.
  unfold torch_flatten_start1.
  destruct (t_shape t) as [|n [|m [|k s]]]; intros H; inversion H; subst;
    split; reflexivity.
Qed.

Lemma flatten_ranked_tensor_keeps space g t v :
  flatten_ranked_batch space g (PTensor t) = Ok v ->
  exists t', v = PTensor t'
             /\ t_device t' = t_device t /\ t_data t' = t_data t
             /\ leading (t_shape t') = leading (t_shape t).
Proof.
  unfold flatten_ranked_batch. simpl.
  destruct (tensor_getitem0 g t) as [first|e] eqn:Hfirst; simpl;
    [|discriminate].
  destruct (tensor_getitem0_shape _ _ _ Hfirst) as (n & t0 & Heq & _).
  subst first. simpl.
  destruct (1 <? length (t_shape t0)).
  - destruct (torch_flatten_start1 g t) as [t'|e] eqn:Ht'; simpl;
      intros H; inversion H; subst.
    exists t'. destruct (torch_flatten_start1_keeps _ _ _ Ht') as [H1 H2].
    repeat split; try assumption.
    apply (torch_flatten_start1_leading _ _ _ Ht').
  - intros H; inversion H; subst. exists t. repeat split.
Qed.

Lemma batch_of_one_input (space : Space) (g g' : bool) (dev : device)
    (t : tensor) :
  exists t',
    model_input space g dev (PTensor (tensor_unsqueeze0 g' t)) = Ok t'
    /\ leading (t_shape t') = Some 1
    /\ length (t_shape t') <= 2
    /\ t_data t' = t_data t
    /\ t_device t' = t_device t.
Proof.
  destruct t as [shape data d attached].
  unfold model_input, tensor_unsqueeze0.
  cbn [t_shape t_data t_device t_requires_grad].
  destruct shape as [|m [|k s]].
  - rewrite flat_tensor_batch_passes by (simpl; lia).
    eexists. split; [reflexivity|]. simpl. repeat split; lia.
  - rewrite flat_tensor_batch_passes by (simpl; lia).
    eexists. split; [reflexivity|]. simpl. repeat split; lia.
  - rewrite (normalize_not_raw space g _
               (PTensor (mk_tensor (m :: k :: s)
                           (firstn (numel (m :: k :: s)) data) d
                           (attached && g' && g))))
      by reflexivity.
    cbn [stack_list_batch rbind].
    rewrite flatten_ranked_deep_tensor by (simpl; lia).
    eexists. split; [reflexivity|]. simpl. repeat split; lia.
Qed.

(** The batch [get_action] builds for the inner call is always accepted:
    whatever tensor the single observation became, its batch of one
    passes the normalization of [get_actions] without an exception, and
    the model receives a tensor with one row, of rank at most 2, made of
    the same elements on the same device. *)
Theorem batch_of_one_accepted (space : Space) (g g' : bool) (dev : device)
    (t : tensor) :
  exists t',
    model_input space g dev (PTensor (tensor_unsqueeze0 g' t)) = Ok t'
    /\ leading (t_shape t') = Some 1
    /\ length (t_shape t') <= 2
    /\ t_data t' = t_data t
    /\ t_device t' = t_device t.
Proof. apply batch_of_one_input. Qed.

(** Where the model's input lives.  A batch whose first element is a
    tensor (a tensor, or a list of tensors) reaches [forward] on the
    device of that element: it is never moved to the global device.  Any
    other batch reaches [forward] as a tensor on the global device that
    no graph is attached to.  The tensor in question is the one
    [get_actions] runs the model on. *)
Theorem model_input_placement (self : StochasticPolicy) (obs first : pyval)
    (w : world) (t : tensor) :
  getitem0 (grad_enabled w) obs = Ok first ->
  model_input (observation_space self) (grad_enabled w) (global_device w) obs
  = Ok t ->
  get_actions self obs w = with_no_grad (rollout self (PTensor t)) w
  /\ match first with
     | PTensor t0 => t_device t = t_device t0
     | _ => t_device t = global_device w /\ t_requires_grad t = false
     end.
Proof.
  intros Hfirst Ht. split.
  { rewrite get_actions_via_model_input, Ht. reflexivity. }
  unfold model_input in Ht.
  destruct (normalize_observations _ _ obs) as [v|e] eqn:Hn; simpl in Ht;
    [|discriminate].
  assert (Harr : isinstance_ndarray v = true ->
                 t_device t = global_device w /\ t_requires_grad t = false).
  { destruct v; try discriminate. intros _. simpl in Ht.
    inversion Ht; subst. split; reflexivity. }
  destruct (is_raw first) eqn:Hraw.
  - rewrite (normalize_raw _ _ _ _ Hfirst Hraw) in Hn.
    destruct (flatten_n _ obs) as [b|e]; simpl in Hn; [|discriminate].
    apply flatten_ranked_array_kind in Hn.
    destruct first; try discriminate; apply Harr, Hn.
  - rewrite (normalize_not_raw _ _ _ _ Hfirst Hraw) in Hn.
    destruct first as [x|x|l|a0|t0]; try discriminate.
    + (* first element an ndarray *)
      destruct obs as [x|x|items|a|t1]; simpl in Hfirst; try discriminate.
      * destruct items as [|y rest]; [discriminate|].
        inversion Hfirst; subst y. simpl in Hn.
        destruct (np_stack (PArr a0 :: rest)) as [b|e]; simpl in Hn;
          [|discriminate].
        apply Harr. eapply flatten_ranked_array_kind, Hn.
      * simpl in Hn. apply Harr. eapply flatten_ranked_array_kind, Hn.
      * destruct (tensor_getitem0_shape _ _ _ Hfirst) as (n & t2 & Habs & _).
        discriminate Habs.
    + (* first element a tensor *)
      destruct obs as [x|x|items|a|t1]; simpl in Hfirst; try discriminate.
      * destruct items as [|y rest]; [discriminate|].
        inversion Hfirst; subst y. simpl in Hn.
        destruct (torch_stack (grad_enabled w) (PTensor t0 :: rest))
          as [b|e] eqn:Hb; simpl in Hn; [|discriminate].
        destruct (flatten_ranked_tensor_keeps _ _ _ _ Hn)
          as (t' & Hv & Hdev & _).
        subst v. simpl in Ht. inversion Ht; subst t'. rewrite Hdev.
        revert Hb. unfold torch_stack. simpl.
        destruct (mapM as_tensor_item rest); simpl; [|discriminate].
        destruct (forallb _ _); intros H; inversion H. reflexivity.
      * destruct (nd_getitem0_shape _ _ Hfirst) as (n & _ & Habs).
        discriminate Habs.
      * simpl in Hn.
        destruct (flatten_ranked_tensor_keeps _ _ _ _ Hn)
          as (t' & Hv & Hdev & _).
        subst v. simpl in Ht. inversion Ht; subst t'. rewrite Hdev.
        revert Hfirst. unfold tensor_getitem0.
        destruct (t_shape t1) as [|[|n] s]; intros H; inversion H.
        reflexivity.
Qed.

Lemma model_input_placement_witness :
  let on_gpu := mk_tensor [2; 4] [1; 2; 3; 4; 5; 6; 7; 8]%Z (CUDA 1) false in
  let row0 := mk_tensor [4] [1; 2; 3; 4]%Z (CUDA 1) false in
  getitem0 (grad_enabled w0) (PTensor on_gpu) = Ok (PTensor row0)
  /\ model_input box (grad_enabled w0) (global_device w0) (PTensor on_gpu)
     = Ok on_gpu
  /\ t_device on_gpu = t_device row0.
Proof.
  intros on_gpu row0.
  assert (H1 : getitem0 (grad_enabled w0) (PTensor on_gpu) = Ok (PTensor row0))
    by reflexivity.
  assert (H2 : model_input (observation_space stub_policy) (grad_enabled w0)
                 (global_device w0) (PTensor on_gpu) = Ok on_gpu)
    by reflexivity.
  split; [exact H1|]. split; [exact H2|].
  exact (proj2 (model_input_placement stub_policy (PTensor on_gpu)
                  (PTensor row0) w0 on_gpu H1 H2)).
Defined.

(** ** Normalizing beforehand *)

Lemma get_action_same_normal self x1 x2 w :
  normalize_observation (observation_space self) (grad_enabled w) x1
  = normalize_observation (observation_space self) (grad_enabled w) x2 ->
  get_action self x1 w = get_action self x2 w.
Proof. intros H. rewrite !get_action_eq, H. reflexivity. Qed.

Lemma torch_flatten_rank g t :
  1 < length (t_shape t) -> t_shape (torch_flatten g t) = [numel (t_shape t)].
Proof.
  unfold torch_flatten.
  destruct (t_shape t) as [|m [|k s]] eqn:Hs; simpl; intros H; try lia.
  reflexivity.
Qed.

(** What [normalize_observation] returns: an ndarray, or a tensor with at
    most one axis. *)
Lemma normalize_observation_kind space g x v :
  normalize_observation space g x = Ok v ->
  (exists a, v = PArr a)
  \/ (exists t, v = PTensor t /\ length (t_shape t) <= 1).
Proof.
  unfold normalize_observation.
  destruct x as [y|y|items|a|t]; simpl.
  - destruct (flatten space _); simpl; intros H; inversion H; eauto.
  - destruct (flatten space _); simpl; intros H; inversion H; eauto.
  - destruct (flatten space _); simpl; intros H; inversion H; eauto.
  - destruct (1 <? length (nd_shape a)).
    + destruct (flatten space _); simpl; intros H; inversion H; eauto.
    + intros H; inversion H; eauto.
  - destruct (1 <? length (t_shape t)) eqn:Hlt; intros H; inversion H.
    + right. eexists. split; [reflexivity|].
      apply Nat.ltb_lt in Hlt. rewrite torch_flatten_rank by assumption.
      simpl. lia.
    + right. exists t. split; [reflexivity|]. apply Nat.ltb_ge in Hlt. lia.
Qed.

(** Normalizing a single observation beforehand changes nothing: when
    lines 30-38 turn [x] into [v], and [v] is flat (always so for a
    tensor; for an ndarray, when the observation space's [flatten]
    returned at most one axis), [get_action] on [v] is [get_action] on
    [x]: result, exception and final state. *)
Theorem prenormalized_observation (self : StochasticPolicy) (x v : pyval)
    (w : world) :
  normalize_observation (observation_space self) (grad_enabled w) x = Ok v ->
  (forall a, v = PArr a -> length (nd_shape a) <= 1) ->
  get_action self v w = get_action self x w.
Proof.
  intros Hv Hflat. apply get_action_same_normal. rewrite Hv.
  destruct (normalize_observation_kind _ _ _ _ Hv) as [[a Ha]|[t [Ht Hlen]]];
    subst v; unfold normalize_observation; simpl.
  - specialize (Hflat a eq_refl).
    destruct (1 <? length (nd_shape a)) eqn:Hlt; [|reflexivity].
    apply Nat.ltb_lt in Hlt. lia.
  - destruct (1 <? length (t_shape t)) eqn:Hlt; [|reflexivity].
    apply Nat.ltb_lt in Hlt. lia.
Qed.

Lemma prenormalized_observation_witness :
  let x := PArr (arr22 1 2 3 4) in
  let v := PArr (arr4 1 2 3 4) in
  normalize_observation box true x = Ok v
  /\ get_action stub_policy v w0 = get_action stub_policy x w0.
Proof.
  intros x v.
  assert (Hv : normalize_observation (observation_space stub_policy)
                 (grad_enabled w0) x = Ok v) by reflexivity.
  split; [exact Hv|].
  apply (prenormalized_observation stub_policy x v w0 Hv).
  intros a Ha. inversion Ha. simpl. lia.
Defined.

(** Flattening a raw batch beforehand changes nothing: when the first
    element of [obs] is neither an ndarray nor a tensor and the
    observation space's [flatten_n] turns [obs] into a non-empty batch
    [b] of flat rows, [get_actions] on [b] is [get_actions] on [obs]. *)
Theorem preflattened_batch (self : StochasticPolicy) (obs first : pyval)
    (b : ndarray) (n d : nat) (w : world) :
  getitem0 (grad_enabled w) obs = Ok first ->
  is_raw first = true ->
  flatten_n (observation_space self) obs = Ok b ->
  nd_shape b = [S n; d] ->
  get_actions self (PArr b) w = get_actions self obs w.
Proof.
  intros Hfirst Hraw Hb Hshape. apply get_actions_same_normal.
  rewrite (normalize_raw _ _ _ _ Hfirst Hraw), Hb. simpl.
  destruct b as [shape data]. simpl in Hshape. subst shape. reflexivity.
Qed.

Lemma preflattened_batch_witness :
  let obs := PList [row 1 2 3 4; row 5 6 7 8] in
  let b := mk_ndarray [2; 4] [1; 2; 3; 4; 5; 6; 7; 8]%Z in
  getitem0 (grad_enabled w0) obs = Ok (row 1 2 3 4)
  /\ is_raw (row 1 2 3 4) = true
  /\ flatten_n box obs = Ok b
  /\ get_actions stub_policy (PArr b) w0 = get_actions stub_policy obs w0.
Proof.
  intros obs b.
  split; [reflexivity|]. split; [reflexivity|]. split; [reflexivity|].
  exact (preflattened_batch stub_policy obs (row 1 2 3 4) b 1 4 w0
           eq_refl eq_refl eq_refl eq_refl).
Defined.

(** ** Lists and their stacked form *)

Lemma torch_stack_first g items t :
  torch_stack g items = Ok t ->
  exists t0 rest, items = PTensor t0 :: rest.
Proof.
  unfold torch_stack. destruct items as [|x rest]; simpl; [discriminate|].
  destruct x; simpl; try discriminate. eauto.
Qed.

(** A list of tensors is the tensor it stacks to, and a list that starts
    with an ndarray of at least one axis is the ndarray it stacks to:
    [get_actions] on the list is [get_actions] on the stacked batch. *)
Theorem stacked_list_same (self : StochasticPolicy) (items : list pyval)
    (w : world) :
  (forall t,
     torch_stack (grad_enabled w) items = Ok t ->
     get_actions self (PList items) w = get_actions self (PTensor t) w)
  /\ (forall a rest b,
        items = PArr a :: rest ->
        nd_shape a <> [] ->
        np_stack items = Ok b ->
        get_actions self (PList items) w = get_actions self (PArr b) w).
Proof.
  split.
  - intros t Ht. apply get_actions_same_normal.
    destruct (torch_stack_first _ _ _ Ht) as (t0 & rest & Hitems). subst items.
    pose proof (torch_stack_first_tensor _ _ _ _ Ht) as Hshape.
    rewrite (normalize_not_raw _ _ (PList (PTensor t0 :: rest)) (PTensor t0)
               eq_refl eq_refl).
    cbn [stack_list_batch getitem0 rbind isinstance_ndarray isinstance_tensor].
    rewrite Ht. simpl rbind.
    assert (Hfirst : exists first,
               getitem0 (grad_enabled w) (PTensor t) = Ok first
               /\ is_raw first = false).
    { simpl. unfold tensor_getitem0. rewrite Hshape. eexists.
      split; reflexivity. }
    destruct Hfirst as (first & Hfirst & Hraw).
    rewrite (normalize_not_raw _ _ _ _ Hfirst Hraw). reflexivity.
  - intros a rest b Hitems Ha Hb. subst items.
    apply get_actions_same_normal.
    pose proof (np_stack_first_array _ _ _ Hb) as Hshape.
    rewrite (normalize_not_raw _ _ (PList (PArr a :: rest)) (PArr a)
               eq_refl eq_refl).
    cbn [stack_list_batch getitem0 rbind isinstance_ndarray isinstance_tensor].
    rewrite Hb. simpl rbind.
    assert (Hfirst : exists first,
               getitem0 (grad_enabled w) (PArr b) = Ok first
               /\ is_raw first = false).
    { simpl. unfold nd_getitem0. rewrite Hshape.
      destruct (nd_shape a) as [|m s]; [contradiction Ha; reflexivity|].
      eexists. split; reflexivity. }
    destruct Hfirst as (first & Hfirst & Hraw).
    rewrite (normalize_not_raw _ _ _ _ Hfirst Hraw). reflexivity.
Qed.

Lemma stacked_list_same_witness :
  let items := [PArr (arr4 1 2 3 4); PArr (arr4 5 6 7 8)] in
  let b := mk_ndarray [2; 4] [1; 2; 3; 4; 5; 6; 7; 8]%Z in
  nd_shape (arr4 1 2 3 4) <> []
  /\ np_stack items = Ok b
  /\ get_actions stub_policy (PList items) w0
     = get_actions stub_policy (PArr b) w0.
Proof.
  intros items b.
  assert (Ha : nd_shape (arr4 1 2 3 4) <> []) by discriminate.
  split; [exact Ha|]. split; [reflexivity|].
  exact (proj2 (stacked_list_same stub_policy items w0)
           (arr4 1 2 3 4) [PArr (arr4 5 6 7 8)] b eq_refl Ha eq_refl).
Defined.

(** ** Batches with one axis *)

Lemma mapM_asarray_arrays arrays :
  mapM asarray (map PArr arrays) = Ok arrays.
Proof.
  induction arrays as [|a rest IH]; simpl; [reflexivity|].
  rewrite IH. reflexivity.
Qed.

Lemma zero_dim_shapes xs :
  forallb (fun b => shape_eqb [] (nd_shape b))
    (map (fun x => mk_ndarray [] [x]) xs) = true.
Proof. induction xs; simpl; auto. Qed.

Lemma zero_dim_data (xs : list scalar) :
  concat (map nd_data (map (fun x => mk_ndarray [] [x]) xs)) = xs.
Proof. induction xs as [|x rest IH]; simpl; [|rewrite IH]; reflexivity. Qed.

Lemma np_stack_zero_dim x xs :
  np_stack (map zero_dim (x :: xs))
  = Ok (mk_ndarray [S (length xs)] (x :: xs)).
Proof.
  unfold np_stack, zero_dim.
  rewrite <- (map_map (fun x => mk_ndarray [] [x]) PArr).
  rewrite mapM_asarray_arrays. simpl.
  rewrite zero_dim_shapes, zero_dim_data, length_map. reflexivity.
Qed.

(** Batches with a single axis are not treated alike.  An ndarray of
    shape [(n,)] counts as raw, because indexing it yields a numpy
    scalar and not an ndarray: it goes through the observation space's
    [flatten_n].  A tensor of shape [(n,)] passes through unchanged,
    because indexing it yields a tensor.  A list of [n] zero-dimensional
    ndarrays is stacked into an ndarray of shape [(n,)] and then passes
    through: the raw test is not made again after stacking. *)
Theorem one_axis_batches (space : Space) (g : bool) (n : nat)
    (data : list scalar) :
  normalize_observations space g (PArr (mk_ndarray [S n] data))
  = rbind (flatten_n space (PArr (mk_ndarray [S n] data)))
      (fun b => flatten_ranked_batch space g (PArr b))
  /\ (forall dev attached,
        normalize_observations space g
          (PTensor (mk_tensor [S n] data dev attached))
        = Ok (PTensor (mk_tensor [S n] data dev attached)))
  /\ (forall x xs,
        normalize_observations space g (PList (map zero_dim (x :: xs)))
        = Ok (PArr (mk_ndarray [S (length xs)] (x :: xs)))).
Proof.
  split; [|split].
  - apply (normalize_raw space g _ (PNpScalar (nth 0 data 0%Z)));
      reflexivity.
  - intros dev attached. reflexivity.
  - intros x xs.
    rewrite (normalize_not_raw space g _ (zero_dim x)) by reflexivity.
    unfold stack_list_batch.
    change (getitem0 g (PList (map zero_dim (x :: xs)))) with (Ok (zero_dim x)).
    cbn [rbind zero_dim isinstance_ndarray]. fold (zero_dim x).
    change (zero_dim x :: map zero_dim xs) with (map zero_dim (x :: xs)).
    rewrite np_stack_zero_dim. reflexivity.
Qed.

(** ** What [get_action] returns *)

Lemma tensor_numpy_cpu_eq g s a :
  tensor_numpy (tensor_cpu g s) = Ok a -> a = to_ndarray s.
Proof.
  intros H. destruct a as [shape data].
  pose proof (tensor_numpy_shape _ _ H) as H1.
  pose proof (tensor_numpy_data _ _ H) as H2.
  rewrite tensor_cpu_shape in H1. rewrite tensor_cpu_data in H2.
  simpl in *. subst. reflexivity.
Qed.

Lemma dict_comprehension_map {V W X} (h : V -> W) (f : W -> result X)
    (d : dict V) :
  dict_comprehension f (map (fun kv => (fst kv, h (snd kv))) d)
  = dict_comprehension (fun v => f (h v)) d.
Proof.
  induction d as [|[k v] rest IH]; simpl; [reflexivity|].
  rewrite IH. reflexivity.
Qed.

(** A call of [get_action] that returns ran the model once, on a
    [ROLLOUT] input with exactly one row and at most two axes, inside
    the no-grad scope; the action is row 0 of the distribution's sample,
    the info mapping has the keys of the model's info map, in order,
    each value row 0 of the model's tensor; and the final state is the
    one after sampling, with the caller's grad mode put back. *)
Theorem get_action_result (self : StochasticPolicy) (x : pyval) (w : world)
    (action : pyval) (infos : dict pyval) (w' : world) :
  get_action self x w = (Ok (action, infos), w') ->
  exists t d info w1 s w2,
    leading (t_shape t) = Some 1
    /\ length (t_shape t) <= 2
    /\ forward self (mk_PolicyInput ROLLOUT t) (set_grad_enabled false w)
       = (Ok (d, info), w1)
    /\ sample d w1 = (Ok s, w2)
    /\ nd_getitem0 (to_ndarray s) = Ok action
    /\ dict_comprehension (fun v => nd_getitem0 (to_ndarray v)) info
       = Ok infos
    /\ keys infos = keys info
    /\ w' = set_grad_enabled (grad_enabled w) w2.
Proof.
  rewrite get_action_eq. intros H.
  destruct (normalize_observation _ _ x) as [v|e]; [|discriminate].
  destruct (ensure_tensor _ v) as [t0|e]; [|discriminate].
  cbv zeta in H.
  destruct (get_actions self _ (set_grad_enabled false w))
    as [[[act inf]|e] wi] eqn:Hin; simpl in H; [|discriminate].
  unfold index0 in H. simpl in H.
  destruct (nd_getitem0 act) as [a0|e] eqn:Ha0; simpl in H; [|discriminate].
  destruct (dict_comprehension nd_getitem0 inf) as [i0|e] eqn:Hi0;
    simpl in H; [|discriminate].
  inversion H; subst a0 i0 w'. clear H.
  apply get_actions_ok in Hin.
  destruct Hin as (v' & t & d & info & w1 & s & w2 & Hn & Ht & Hf & Hs & Ha
                   & Hd & Hw).
  destruct (batch_of_one_input (observation_space self) false false
              (global_device w) t0)
    as (t' & Hmi & Hlead & Hrank & _).
  unfold model_input in Hmi. simpl in Hn, Ht. rewrite Hn in Hmi.
  simpl in Hmi. rewrite Ht in Hmi. inversion Hmi; subst t'.
  exists t, d, info, w1, s, w2.
  pose proof (tensor_numpy_cpu_eq _ _ _ Ha) as Hact. subst act.
  rewrite detach_all_eq in Hd. inversion Hd; subst inf. clear Hd.
  rewrite (dict_comprehension_map to_ndarray nd_getitem0) in Hi0.
  repeat split; try assumption.
  - apply (dict_comprehension_keys _ _ _ Hi0).
  - subst wi. reflexivity.
Qed.

Lemma get_action_result_witness :
  let x := PArr (arr4 1 2 3 4) in
  let action := PArr (mk_ndarray [2] [3; 7]%Z) in
  let infos := [("mean"%string, PArr (mk_ndarray [2] [3; 7]%Z));
                ("log_std"%string, PArr (mk_ndarray [2] [0; 0]%Z))] in
  get_action stub_policy x w0 = (Ok (action, infos), w0)
  /\ exists t d info w1 s w2,
       leading (t_shape t) = Some 1
       /\ length (t_shape t) <= 2
       /\ forward stub_policy (mk_PolicyInput ROLLOUT t)
            (set_grad_enabled false w0) = (Ok (d, info), w1)
       /\ sample d w1 = (Ok s, w2)
       /\ nd_getitem0 (to_ndarray s) = Ok action
       /\ dict_comprehension (fun v => nd_getitem0 (to_ndarray v)) info
          = Ok infos
       /\ keys infos = keys info
       /\ w0 = set_grad_enabled (grad_enabled w0) w2.
Proof.
  intros x action infos.
  assert (Hrun : get_action stub_policy x w0 = (Ok (action, infos), w0))
    by reflexivity.
  split; [exact Hrun|].
  exact (get_action_result stub_policy x w0 action infos w0 Hrun).
Defined.

Lemma nd_getitem0_row a :
  if has_row0 a then exists v, nd_getitem0 a = Ok v
  else nd_getitem0 a = Err IndexError.
Proof.
  unfold has_row0, nd_getitem0.
  destruct (nd_shape a) as [|[|n] [|m s]]; simpl; eauto.
Qed.

Lemma dict_comprehension_rows (d : dict ndarray) :
  if forallb has_row0 (values d)
  then exists d', dict_comprehension nd_getitem0 d = Ok d'
  else dict_comprehension nd_getitem0 d = Err IndexError.
Proof.
  induction d as [|[k a] rest IH]; simpl; [eauto|].
  pose proof (nd_getitem0_row a) as Ha.
  destruct (has_row0 a); simpl.
  - destruct Ha as [v Hv]. rewrite Hv. simpl.
    destruct (forallb has_row0 (values rest)).
    + destruct IH as [d' Hd']. rewrite Hd'. simpl. eauto.
    + rewrite IH. reflexivity.
  - rewrite Ha. reflexivity.
Qed.

(** Line 44 indexes what the batch call returned.  When the inner
    [get_actions] call returns, [get_action] returns exactly when the
    action array and every info value have a row 0 (a leading axis that
    is not empty); otherwise it raises [IndexError].  Either way the
    final state is that of the inner call with the caller's grad mode
    put back. *)
Theorem get_action_needs_row0 (self : StochasticPolicy) (x v : pyval)
    (t : tensor) (w w1 : world) (action : ndarray) (infos : dict ndarray) :
  normalize_observation (observation_space self) (grad_enabled w) x = Ok v ->
  ensure_tensor (global_device w) v = Ok t ->
  get_actions self (PTensor (tensor_unsqueeze0 false t))
    (set_grad_enabled false w) = (Ok (action, infos), w1) ->
  if has_row0 action && forallb has_row0 (values infos)
  then exists r,
         get_action self x w = (Ok r, set_grad_enabled (grad_enabled w) w1)
  else get_action self x w
       = (Err IndexError, set_grad_enabled (grad_enabled w) w1).
Proof.
  intros Hv Ht Hin. rewrite get_action_eq, Hv, Ht. cbv zeta. rewrite Hin.
  simpl. unfold index0. simpl.
  pose proof (nd_getitem0_row action) as Ha.
  pose proof (dict_comprehension_rows infos) as Hd.
  destruct (has_row0 action); simpl.
  - destruct Ha as [a0 Ha0]. rewrite Ha0. simpl.
    destruct (forallb has_row0 (values infos)).
    + destruct Hd as [d' Hd']. rewrite Hd'. simpl. eauto.
    + rewrite Hd. reflexivity.
  - rewrite Ha. reflexivity.
Qed.

Lemma get_action_needs_row0_witness :
  let x := PArr (arr4 1 2 3 4) in
  let t := mk_tensor [4] [1; 2; 3; 4]%Z CPU false in
  let inside := set_grad_enabled false w0 in
  normalize_observation box true x = Ok x
  /\ ensure_tensor CPU x = Ok t
  /\ get_actions rowless_policy (PTensor (tensor_unsqueeze0 false t)) inside
     = (Ok (mk_ndarray [] [7%Z], []), inside)
  /\ get_action rowless_policy x w0 = (Err IndexError, w0).
Proof.
  intros x t inside.
  split; [reflexivity|]. split; [reflexivity|]. split; [reflexivity|].
  exact (get_action_needs_row0 rowless_policy x x t w0 inside
           (mk_ndarray [] [7%Z]) [] eq_refl eq_refl eq_refl).
Defined.

(** ** Lists that cannot be stacked *)

Lemma mapM_as_tensor_item_mixed items :
  existsb (fun v => negb (isinstance_tensor v)) items = true ->
  mapM as_tensor_item items = Err TypeError.
Proof.
  induction items as [|x rest IH]; simpl; [discriminate|].
  destruct x; simpl; try reflexivity.
  intros H. rewrite (IH H). reflexivity.
Qed.

Lemma mapM_as_tensor_item_tensors ts :
  mapM as_tensor_item (map PTensor ts) = Ok ts.
Proof.
  induction ts as [|t rest IH]; simpl; [reflexivity|].
  rewrite IH. reflexivity.
Qed.

Lemma forallb_exists_not {A} (p q : A -> bool) l :
  existsb (fun x => negb (p x)) l = true ->
  forallb (fun x => p x && q x) l = false.
Proof.
  induction l as [|x rest IH]; simpl; [discriminate|].
  destruct (p x); simpl; [|reflexivity].
  intros H. rewrite (IH H). apply andb_false_r.
Qed.

Lemma forallb_exists_not1 {A} (p : A -> bool) l :
  existsb (fun x => negb (p x)) l = true -> forallb p l = false.
Proof.
  induction l as [|x rest IH]; simpl; [discriminate|].
  destruct (p x); simpl; [|reflexivity]. exact IH.
Qed.

Lemma get_actions_stack_error self items first e w :
  getitem0 (grad_enabled w) (PList items) = Ok first ->
  is_raw first = false ->
  stack_list_batch (grad_enabled w) (PList items) = Err e ->
  get_actions self (PList items) w = (Err e, w).
Proof.
  intros Hfirst Hraw Hstack.
  rewrite get_actions_eq, (normalize_not_raw _ _ _ _ Hfirst Hraw), Hstack.
  reflexivity.
Qed.

(** A list batch that cannot be stacked is refused before the model is
    consulted, with the interpreter state unchanged: a list that starts
    with a tensor and holds an element that is not a tensor raises
    [TypeError]; a list of tensors one of which has another shape than
    the first raises [RuntimeError]; a list of ndarrays one of which has
    another shape than the first raises [ValueError]. *)
Theorem unstackable_lists (self : StochasticPolicy) (w : world) :
  (forall t rest,
     existsb (fun v => negb (isinstance_tensor v)) rest = true ->
     get_actions self (PList (PTensor t :: rest)) w = (Err TypeError, w))
  /\ (forall t ts,
        existsb (fun u => negb (shape_eqb (t_shape t) (t_shape u))) ts = true ->
        get_actions self (PList (PTensor t :: map PTensor ts)) w
        = (Err RuntimeError, w))
  /\ (forall a arrays,
        existsb (fun b => negb (shape_eqb (nd_shape a) (nd_shape b))) arrays
        = true ->
        get_actions self (PList (PArr a :: map PArr arrays)) w
        = (Err ValueError, w)).
Proof.
  split; [|split].
  - intros t rest Hmixed.
    apply (get_actions_stack_error self _ (PTensor t)); try reflexivity.
    simpl. unfold torch_stack. simpl.
    rewrite (mapM_as_tensor_item_mixed _ Hmixed). reflexivity.
  - intros t ts Hshape.
    apply (get_actions_stack_error self _ (PTensor t)); try reflexivity.
    simpl. unfold torch_stack. simpl.
    rewrite mapM_as_tensor_item_tensors. simpl.
    rewrite (forallb_exists_not _ _ _ Hshape). reflexivity.
  - intros a arrays Hshape.
    apply (get_actions_stack_error self _ (PArr a)); try reflexivity.
    simpl. unfold np_stack. simpl.
    rewrite mapM_asarray_arrays. simpl.
    rewrite (forallb_exists_not1 _ _ Hshape). reflexivity.
Qed.

Lemma unstackable_lists_witness :
  let t := mk_tensor [4] [1; 2; 3; 4]%Z CPU false in
  existsb (fun v => negb (isinstance_tensor v)) [PArr (arr4 5 6 7 8)] = true
  /\ get_actions stub_policy (PList [PTensor t; PArr (arr4 5 6 7 8)]) w0
     = (Err TypeError, w0)
  /\ existsb (fun b => negb (shape_eqb (nd_shape (arr4 1 2 3 4)) (nd_shape b)))
       [arr22 5 6 7 8] = true
  /\ get_actions stub_policy
       (PList (PArr (arr4 1 2 3 4) :: map PArr [arr22 5 6 7 8])) w0
     = (Err ValueError, w0).
Proof.
  intros t.
  destruct (unstackable_lists stub_policy w0) as (H1 & _ & H3).
  split; [reflexivity|].
  split; [exact (H1 t [PArr (arr4 5 6 7 8)] eq_refl)|].
  split; [reflexivity|].
  exact (H3 (arr4 1 2 3 4) [arr22 5 6 7 8] eq_refl).
Defined.

(** ** Tensor observations *)

(** For a tensor observation of any rank, on any device, attached or
    not, [get_action] runs the model inside the no-grad scope on that
    tensor as one row -- the same elements in the same order on the same
    device, detached, never converted or moved to the global device --
    and indexes the outcome at 0. *)
Theorem tensor_observation_input (self : StochasticPolicy) (t : tensor)
    (w : world) :
  get_action self (PTensor t) w =
  (rbind (fst (rollout self (PTensor (one_row t)) (set_grad_enabled false w)))
     index0,
   set_grad_enabled (grad_enabled w)
     (snd (rollout self (PTensor (one_row t)) (set_grad_enabled false w)))).
Proof.
  rewrite get_action_eq. unfold normalize_observation. simpl.
  assert (Hin : forall u,
             tensor_unsqueeze0 false u = one_row t ->
             get_actions self (PTensor (tensor_unsqueeze0 false u))
               (set_grad_enabled false w)
             = (fst (rollout self (PTensor (one_row t))
                       (set_grad_enabled false w)),
                set_grad_enabled false
                  (snd (rollout self (PTensor (one_row t))
                          (set_grad_enabled false w))))).
  { intros u Hu. rewrite Hu, get_actions_eq. simpl grad_enabled.
    unfold one_row.
    destruct (t_shape t) as [|m [|k s]];
      rewrite flat_tensor_batch_passes by (simpl; lia);
      rewrite with_no_grad_eq; reflexivity. }
  destruct t as [shape data dev attached]. simpl in *.
  destruct shape as [|m [|k s]]; simpl.
  - rewrite Hin by (unfold tensor_unsqueeze0, one_row; simpl;
                     rewrite andb_false_r; reflexivity).
    reflexivity.
  - rewrite Hin by (unfold tensor_unsqueeze0, one_row; simpl;
                     rewrite andb_false_r; reflexivity).
    reflexivity.
  - rewrite Hin by (unfold tensor_unsqueeze0, torch_flatten, one_row; simpl;
                     rewrite andb_false_r; reflexivity).
    reflexivity.
Qed.
